(** * CoE-Backend: dynamic flow routes and the request logging middleware

  A shallow embedding of

  - [services/flow_router_service.py]: [FlowRouterService] with
    [add_flow_route], [remove_flow_route] and the handler
    [execute_flow_endpoint] that every dynamic route is bound to;
  - [core/app_factory.py], method [_add_middleware]: the
    [ForwardedPrefixMiddleware] and the [log_requests] middleware.

  Python values are modelled as follows.  A [str] is the list of its code
  points, so that [len], slicing, [startswith], [endswith] and [rstrip]
  count characters exactly as Python does.  A [dict] keyed by [str] whose
  identity matters (the route table) is a [gmap]; a dict literal returned
  as a JSON document is an association list in the order it is written.
  A raised exception is a value of [raised], which keeps the distinction
  that [except Exception] makes between [Exception] and the other
  subclasses of [BaseException]. *)

From Stdlib Require Import ZArith NArith String Ascii DecimalString.
From stdpp Require Import base option list gmap sorting.

Local Open Scope N_scope.
Local Set Warnings "-register-all".
Local Open Scope list_scope.

(* ===================================================================== *)
(** * Python strings *)
(* ===================================================================== *)

Module PyStr.

(** A Python [str]: the sequence of its Unicode code points. *)
Abbreviation pystr := (list N).

(** An ASCII literal of the source, as a [pystr]. *)
Definition py (s : string) : pystr :=
  (fun a : ascii => N_of_ascii a) <$> list_ascii_of_string s.

(** [s.startswith(p)] *)
Fixpoint startswith (s p : pystr) {struct p} : bool :=
  match p with
  | [] => true
  | c :: p' =>
      match s with
      | [] => false
      | d :: s' => (d =? c) && startswith s' p'
      end
  end.

(** [s.endswith(p)]: the last [len(p)] characters of [s] are [p]. *)
Definition endswith (s p : pystr) : bool :=
  (length p <=? length s)%nat
  && bool_decide (drop (length s - length p) s = p).

(** [s.rstrip(chars)]: drop every trailing character that occurs in
    [chars]. *)
Fixpoint rstrip (s chars : pystr) : pystr :=
  match s with
  | [] => []
  | c :: s' =>
      match rstrip s' chars with
      | [] => if bool_decide (c ∈ chars) then [] else [c]
      | r => c :: r
      end
  end.

(** [sep.join(parts)] *)
Fixpoint join (sep : pystr) (parts : list pystr) : pystr :=
  match parts with
  | [] => []
  | [p] => p
  | p :: rest => p ++ sep ++ join sep rest
  end.

(** [str(n)] for an [int]. *)
Definition str_of_int (z : Z) : pystr :=
  py (NilEmpty.string_of_int (Z.to_int z)).

(** The order [<=] of Python on [str]: lexicographic on code points. *)
Fixpoint str_leb (a b : pystr) : bool :=
  match a, b with
  | [], _ => true
  | _ :: _, [] => false
  | x :: a', y :: b' => (x <? y) || ((x =? y) && str_leb a' b')
  end.

Definition str_le (a b : pystr) : Prop := str_leb a b = true.


#[export] Instance str_le_dec a b : Decision (str_le a b).
Proof. unfold str_le. apply _. Defined.

(** [any(f(x) for x in l)] *)
Definition any {A} (f : A -> bool) (l : list A) : bool := existsb f l.

End PyStr.
Import PyStr.

(* ===================================================================== *)
(** * Exceptions and log records *)
(* ===================================================================== *)

(** What a [raise] carries.  [PyException] stands for the instances of
  [Exception], the ones a clause [except Exception] catches;
  [PyBaseException] for the remaining instances of [BaseException]
  (cancellation, interpreter exit), which pass through such a clause.
  The argument is [str(e)]. *)
Inductive raised : Type :=
| PyException (message : pystr)
| PyBaseException (message : pystr).

(** The levels of the [logging] module that the source uses. *)
Inductive level : Type := INFO | WARNING | ERROR.

#[export] Instance level_eq_dec : EqDecision level.
Proof. solve_decision. Defined.

(** One call of [logging.info], [logging.warning] or [logging.error];
  [log_exc_info] is the keyword [exc_info=True] (the traceback is
  attached). *)
Record log_record : Type := LogRecord {
  log_level : level;
  log_msg : pystr;
  log_exc_info : bool
}.

#[export] Instance log_record_eq_dec : EqDecision log_record.
Proof. solve_decision. Defined.

Definition log (l : level) (msg : pystr) : log_record := LogRecord l msg false.

(** The non-ASCII characters of the log messages. *)
Definition WARNING_SIGN : pystr := [0x26A0; 0xFE0F].   (* U+26A0 U+FE0F *)
Definition CHECK_MARK : pystr := [0x2705].             (* U+2705 *)
Definition MEMO : pystr := [0x1F4DD].                  (* U+1F4DD *)
Definition GLOBE : pystr := [0x1F310].                 (* U+1F310 *)

(* ===================================================================== *)
(** * services/flow_router_service.py *)
(* ===================================================================== *)

Module FlowRouter.

(** A structured document: what [Dict[str, Any]] holds, and what a
    handler returns for FastAPI to serialise. *)
Inductive json : Type :=
  | JNull
  | JBool (b : bool)
  | JNum (z : Z)
  | JStr (s : pystr)
  | JArr (items : list json)
  | JObj (fields : list (pystr * json)).

(** [d.get(k)] on an object written as a dict literal. *)
Fixpoint fields_get (k : pystr) (fields : list (pystr * json)) : option json :=
  match fields with
  | [] => None
  | (k', v) :: rest => if bool_decide (k' = k) then Some v else fields_get k rest
  end.

Definition has_key (k : pystr) (fields : list (pystr * json)) : bool :=
  bool_decide (is_Some (fields_get k fields)).

(** Modelled from the spec: [schemas.FlowRead] (the spec's FlowDefinition)
    is declared in [core/schemas.py], which is not part of the sources.
    The fields are the ones [add_flow_route] reads.  [flow_body] is either
    an object with a [model_dump] method, given by what the method
    returns, or a plain document. *)
Inductive flow_body_t : Type :=
  | BodyModel (model_dump : json)
  | BodyPlain (doc : json).

Record FlowRead : Type := {
  endpoint : pystr;
  description : pystr;
  flow_body : flow_body_t
}.

(** Modelled from the spec: the result type of
    [langflow_service.execute_flow] (the spec's ExecutionResult), declared
    in [services/langflow], which is not part of the sources.  The fields
    are the ones the handler reads and passes on unchanged. *)
Record ExecutionResult : Type := {
  success : bool;
  outputs : json;
  error : json;
  session_id : json;
  execution_time : json
}.

(** A route as [router.post(endpoint, tags=..., summary=...)] declares it.
    The handler is the closure [execute_flow_endpoint], which captures
    [flow]; the route stores the captured flow. *)
Record Route : Type := {
  route_path : pystr;
  route_methods : list pystr;
  route_tags : list pystr;
  route_summary : pystr;
  route_flow : FlowRead
}.

Record APIRouter : Type := { router_routes : list Route }.

(** The two attributes of the [FastAPI] application that the service
    touches: the routes of the serving surface, in the order they were
    included, and the cached OpenAPI document. *)
Record FastAPI : Type := {
  app_routes : list Route;
  openapi_schema : option json
}.

Record FlowRouterService : Type := {
  app : FastAPI;
  dynamic_routers : gmap pystr APIRouter
}.

(** The two things the service leaves to FastAPI and Starlette, which are
    not part of the sources.

    - [declare_route path]: how [@router.post(path, ...)], applied to the
      handler, ends.  The framework compiles [path] as a template
      ([{name}] is a parameter) and checks the parameters of the handler
      against it; it raises for some paths, such as one that names a
      parameter twice.
    - [route_matches declared path]: whether a route declared on
      [declared] answers a request to [path]; a template answers other
      paths than the one it is written as. *)
Record Framework : Type := {
  declare_route : pystr -> raised + unit;
  route_matches : pystr -> pystr -> bool
}.

(** [FlowRouterService.__init__] *)
Definition init (a : FastAPI) : FlowRouterService :=
  {| app := a; dynamic_routers := ∅ |}.

(** ** The methods thread the service object and write log records *)

Definition Svc (A : Type) : Type :=
  FlowRouterService -> A * FlowRouterService * list log_record.

#[export] Instance svc_ret : MRet Svc := fun A a s => (a, s, []).

#[export] Instance svc_bind : MBind Svc := fun A B f m s =>
  let '(a, s1, l1) := m s in
  let '(b, s2, l2) := f a s1 in
  (b, s2, l1 ++ l2).

Definition logger_info (msg : pystr) : Svc unit :=
  fun s => (tt, s, [log INFO msg]).

Definition logger_warning (msg : pystr) : Svc unit :=
  fun s => (tt, s, [log WARNING msg]).

(** [self.dynamic_routers] *)
Definition get_dynamic_routers : Svc (gmap pystr APIRouter) :=
  fun s => (dynamic_routers s, s, []).

(** [self.app.include_router(router)]: the routes of [router] are added
    after the routes the application already serves. *)
Definition include_router (router : APIRouter) : Svc unit :=
  fun s =>
    (tt,
     {| app := {| app_routes := app_routes (app s) ++ router_routes router;
                  openapi_schema := openapi_schema (app s) |};
        dynamic_routers := dynamic_routers s |},
     []).

(** [self.dynamic_routers[endpoint] = router] *)
Definition set_dynamic_router (endpoint : pystr) (router : APIRouter) : Svc unit :=
  fun s =>
    (tt,
     {| app := app s; dynamic_routers := <[endpoint := router]> (dynamic_routers s) |},
     []).

(** [del self.dynamic_routers[endpoint]] *)
Definition del_dynamic_router (endpoint : pystr) : Svc unit :=
  fun s =>
    (tt,
     {| app := app s; dynamic_routers := delete endpoint (dynamic_routers s) |},
     []).

(** [self.app.openapi_schema = None] *)
Definition reset_openapi_schema : Svc unit :=
  fun s =>
    (tt,
     {| app := {| app_routes := app_routes (app s); openapi_schema := None |};
        dynamic_routers := dynamic_routers s |},
     []).

(** [f"/run/{flow_endpoint}"] *)
Definition run_path (flow_endpoint : pystr) : pystr := py "/run/" ++ flow_endpoint.

(** The router that [add_flow_route] builds: one POST route. *)
Definition flow_router (flow : FlowRead) : APIRouter :=
  {| router_routes :=
       [ {| route_path := run_path (endpoint flow);
            route_methods := [py "POST"];
            route_tags := [py "Runnable Flows"];
            route_summary := description flow;
            route_flow := flow |} ] |}.

(** [add_flow_route]: it returns or, when the framework refuses the
    declaration of the route (line 27), raises what the framework raised,
    before anything is attached or stored. *)
Definition add_flow_route (fw : Framework) (flow : FlowRead) : Svc (raised + unit) :=
  let endpoint := run_path (endpoint flow) in
  routers ← get_dynamic_routers;
  if bool_decide (is_Some (routers !! endpoint)) then
    logger_info (py "Route " ++ endpoint ++ py " already exists. Skipping.") ;;
    mret (inr tt)
  else
    match declare_route fw endpoint with
    | inl e => mret (inl e)
    | inr _ =>
        let router := flow_router flow in
        include_router router ;;
        set_dynamic_router endpoint router ;;
        reset_openapi_schema ;;
        logger_info (CHECK_MARK ++ py " Dynamically added route: POST " ++ endpoint) ;;
        mret (inr tt)
    end.

Definition remove_flow_route (flow_endpoint : pystr) : Svc unit :=
  let endpoint := run_path flow_endpoint in
  routers ← get_dynamic_routers;
  if bool_decide (is_Some (routers !! endpoint)) then
    del_dynamic_router endpoint ;;
    reset_openapi_schema ;;
    logger_info (WARNING_SIGN ++ py " Dynamically 'deactivated' route: " ++ endpoint
                 ++ py ". Full removal requires restart.")
  else
    logger_warning (py "Route " ++ endpoint ++ py " not found for removal.").

(** The service object and the log after a call. *)
Definition state_of {A} (r : A * FlowRouterService * list log_record) : FlowRouterService :=
  snd (fst r).
(** What the call returned, or what it raised. *)
Definition result_of {A} (r : A * FlowRouterService * list log_record) : A :=
  fst (fst r).
Definition logs_of {A} (r : A * FlowRouterService * list log_record) : list log_record :=
  snd r.

(** The application has a POST route declared on exactly [path]. *)
Definition serves (a : FastAPI) (path : pystr) : bool :=
  any (fun r => bool_decide (route_path r = path)
                && bool_decide (py "POST" ∈ route_methods r))
      (app_routes a).

(** A POST to [path] is answered: one of the POST routes of the
    application matches [path], as the framework matches. *)
Definition answers (fw : Framework) (a : FastAPI) (path : pystr) : bool :=
  any (fun r => route_matches fw (route_path r) path
                && bool_decide (py "POST" ∈ route_methods r))
      (app_routes a).

(** The entries of the route table under one path. *)
Definition entries_at (path : pystr) (routers : gmap pystr APIRouter)
  : list (pystr * APIRouter) :=
  filter (fun kv => kv.1 = path) (map_to_list routers).

(** The state after the insertion branch of [add_flow_route]. *)
Definition inserted (flow : FlowRead) (s : FlowRouterService) : FlowRouterService :=
  {| app := {| app_routes := app_routes (app s) ++ router_routes (flow_router flow);
               openapi_schema := None |};
     dynamic_routers := <[run_path (endpoint flow) := flow_router flow]> (dynamic_routers s) |}.

(** The state after the deletion branch of [remove_flow_route]. *)
Definition deactivated (flow_endpoint : pystr) (s : FlowRouterService) : FlowRouterService :=
  {| app := {| app_routes := app_routes (app s); openapi_schema := None |};
     dynamic_routers := delete (run_path flow_endpoint) (dynamic_routers s) |}.


(** ** The handler bound to a dynamic route *)

(** [flow.flow_body.model_dump() if hasattr(flow.flow_body, 'model_dump')
    else flow.flow_body] *)
Definition flow_definition (flow : FlowRead) : json :=
  match flow_body flow with
  | BodyModel dumped => dumped
  | BodyPlain doc => doc
  end.

Section Handler.

(** [langflow_service.execute_flow(flow_data=..., inputs=...)]: the
    external engine.  It returns an [ExecutionResult] or raises. *)
Variable execute_flow : json -> json -> raised + ExecutionResult.

Definition execute_flow_endpoint (flow : FlowRead) (user_input : json)
  : list log_record * (raised + json) :=
  match execute_flow (flow_definition flow) user_input with
  | inr execution_result =>
      if success execution_result then
        ([], inr (JObj [ (py "success", JBool true);
                         (py "result", outputs execution_result);
                         (py "session_id", session_id execution_result);
                         (py "execution_time", execution_time execution_result) ]))
      else
        ([], inr (JObj [ (py "success", JBool false);
                         (py "error", error execution_result) ]))
  | inl (PyException e) =>
      ([ LogRecord ERROR
           (py "Error executing dynamic flow '" ++ endpoint flow ++ py "': " ++ e)
           true ],
       inr (JObj [ (py "success", JBool false); (py "error", JStr e) ]))
  | inl (PyBaseException e) => ([], inl (PyBaseException e))
  end.

End Handler.

End FlowRouter.

(* ===================================================================== *)
(** * core/app_factory.py: the middleware of [_add_middleware] *)
(* ===================================================================== *)

Module AppFactory.

(** What the middleware reads of a Starlette [Request]: [request.method],
    [request.url.path], [request.headers] (names in lower case, as the
    server delivers them), [request.client] and [request.scope["root_path"]]. *)
Record Request : Type := {
  method : pystr;
  url_path : pystr;
  headers : list (pystr * pystr);
  client : option (pystr * Z);
  root_path : pystr
}.

Record Response : Type := { status_code : Z }.

(** [request.headers.get(name)]: the value of the first header of that
    name, [None] when there is none. *)
Definition headers_get (name : pystr) (hs : list (pystr * pystr)) : option pystr :=
  snd <$> List.find (fun h => bool_decide (h.1 = name)) hs.

(** [request.scope["root_path"] = value] *)
Definition set_root_path (request : Request) (value : pystr) : Request :=
  {| method := method request;
     url_path := url_path request;
     headers := headers request;
     client := client request;
     root_path := value |}.

(** ** [ForwardedPrefixMiddleware.dispatch] *)

(** [if prefix:] on the result of [headers.get]: [None] and the empty
    string are both false. *)
Definition truthy (prefix : option pystr) : bool :=
  match prefix with
  | Some (_ :: _) => true
  | _ => false
  end.

Definition dispatch {A} (request : Request) (call_next : Request -> A) : A :=
  let prefix := headers_get (py "x-forwarded-prefix") (headers request) in
  let request :=
    if truthy prefix
    then set_root_path request (rstrip (default [] prefix) (py "/"))
    else request in
  call_next request.

(** ** What [log_requests] does to the outside *)

(** The observable steps of one request, in order: a log record, the
    read of the request body, a call of the scrubber, the call of the
    next stage. *)
Inductive event : Type :=
| EvLog (r : log_record)
| EvBodyRead
| EvScrub (text : pystr)
| EvCallNext (request : Request).

(** A computation leaves a trace and returns or raises. *)
Definition Eff (A : Type) : Type := list event * (raised + A).

#[export] Instance eff_ret : MRet Eff := fun A a => ([], inr a).

#[export] Instance eff_bind : MBind Eff := fun A B f m =>
  match m with
  | (t, inl e) => (t, inl e)
  | (t, inr a) => let '(t', r) := f a in (t ++ t', r)
  end.

(** An outside call: it is recorded, and it returns or raises. *)
Definition perform {A} (ev : event) (outcome : raised + A) : Eff A := ([ev], outcome).

Definition raise {A} (e : raised) : Eff A := ([], inl e).

Definition logging_info (msg : pystr) : Eff unit := ([EvLog (log INFO msg)], inr tt).
Definition logging_warning (msg : pystr) : Eff unit := ([EvLog (log WARNING msg)], inr tt).

(** [try: body / except Exception as e: handler(str(e))] *)
Definition try_except_Exception {A} (body : Eff A) (handler : pystr -> Eff A) : Eff A :=
  match body with
  | (t, inl (PyException e)) => let '(t', r) := handler e in (t ++ t', r)
  | _ => body
  end.

(** Modelled from the spec: one match of the scrubber
    ([services/pii_service.py] is not part of the sources), the spec's
    PiiMatch [{type: category label, span/location}].  [hit_type] is
    [hit["type"]]. *)
Record PiiHit : Type := {
  hit_type : pystr;
  hit_span : Z * Z
}.

(** The collaborators of [log_requests] during one request.

    - [request_body]: how [await request.body()] ends;
    - [decode]: [body.decode("utf-8", errors="replace")], which does not
      raise;
    - [scrub_text]: the scrubber of [services/pii_service.py];
    - [call_next]: the rest of the application;
    - [url_path_fault]: the exception that [request.url.path] raises, if
      it raises; it then raises each time it is read, in the body stage
      (lines 185 and 190), in the block of the scanner filter (line 201)
      and in the access log (lines 226 and 229); [request.method],
      [request.client] and [response.status_code] are taken to be
      readable;
    - [process_time_3f]: [f"{process_time:.3f}"], the elapsed wall-clock
      time as it is printed. *)
Record World : Type := {
  request_body : raised + list Byte.byte;
  decode : list Byte.byte -> pystr;
  scrub_text : pystr -> raised + (pystr * list PiiHit);
  call_next : Request -> raised + Response;
  url_path_fault : option raised;
  process_time_3f : pystr
}.

(** [request.url.path] *)
Definition read_url_path (w : World) (request : Request) : Eff pystr :=
  match url_path_fault w with
  | Some e => raise e
  | None => mret (url_path request)
  end.

(** [",".join(sorted({hit["type"] for hit in body_hits}))] *)
Definition type_set (body_hits : list PiiHit) : gset pystr :=
  list_to_set (hit_type <$> body_hits).

Definition sorted (s : gset pystr) : list pystr :=
  merge_sort str_le (elements s).

Definition masked_types (body_hits : list PiiHit) : pystr :=
  join (py ",") (sorted (type_set body_hits)).


(** ** [log_requests], lines 176-194: the body of a POST request *)

Definition log_request_body (w : World) (request : Request) : Eff unit :=
  if bool_decide (method request = py "POST") then
    try_except_Exception
      (body ← perform EvBodyRead (request_body w);
       if bool_decide (body ≠ []) then
         let decoded := decode w body in
         '(masked_body, body_hits) ← perform (EvScrub decoded) (scrub_text w decoded);
         let snippet := take 500 masked_body in
         let suffix := if (500 <? length masked_body)%nat then py "..." else [] in
         path ← read_url_path w request;
         logging_info (MEMO ++ py " " ++ method request ++ py " " ++ path
                       ++ py " body: " ++ snippet ++ suffix) ;;
         if bool_decide (body_hits ≠ []) then
           path ← read_url_path w request;
           logging_info (py "[PII] path=" ++ path
                         ++ py " masked_types=" ++ masked_types body_hits)
         else mret tt
       else mret tt)
      (fun e => logging_warning (WARNING_SIGN ++ py " Could not read request body: " ++ e))
  else mret tt.

(** ** [log_requests], lines 199-220: the scanner filter *)

Definition skip_prefixes : list pystr :=
  [ py "/"; py "/favicon.ico"; py "/admin"; py "/login"; py "/cgi-bin"; py "/console";
    py "/helpdesk"; py "/owncloud"; py "/zabbix"; py "/WebInterface";
    py "/api/session/properties"; py "/ssi.cgi"; py "/jasperserver"; py "/partymgr";
    py "/css/"; py "/js/"; py "/version" ].

Definition skip_suffixes : list pystr :=
  [ py ".php"; py ".pl"; py ".ico"; py ".html"; py ".js"; py ".png" ].

Definition is_scanner_like (path : pystr) : bool :=
  bool_decide (path = py "/")
  || any (fun p => startswith path p) skip_prefixes
  || any (fun s => endswith path s) skip_suffixes.

(** [path or "/"] *)
Definition or_root (path : pystr) : pystr :=
  if bool_decide (path = []) then py "/" else path.

(** [request.url.path or "/"], where the path can be read. *)
Definition path_or_root (request : Request) : pystr := or_root (url_path request).

Definition is_get_404 (request : Request) (response : Response) : bool :=
  bool_decide (method request = py "GET") && (status_code response =? 404)%Z.

(** The [try] block: [true] when it returns the response at once (line
    217), [false] when control reaches the access log, which is also
    where the [except Exception: pass] clause leads. *)
Definition scanner_filter (w : World) (request : Request) (response : Response) : Eff bool :=
  try_except_Exception
    (path ← read_url_path w request;
     let path := or_root path in
     mret (is_get_404 request response && is_scanner_like path))
    (fun _ => mret false).

(** ** [log_requests], lines 222-232: the access log *)

Definition access_log (w : World) (request : Request) (response : Response) : Eff unit :=
  let client_host :=
    match client request with
    | Some (host, _) => host
    | None => py "unknown"
    end in
  path ← read_url_path w request;
  logging_info (GLOBE ++ py " " ++ method request ++ py " " ++ path
                ++ py " - Client: " ++ client_host) ;;
  path ← read_url_path w request;
  logging_info (CHECK_MARK ++ py " " ++ method request ++ py " " ++ path
                ++ py " - Status: " ++ str_of_int (status_code response)
                ++ py " - Time: " ++ process_time_3f w ++ py "s").

(** ** [log_requests] *)

(** Lines 196-232: from the call of the next stage on. *)
Definition respond (w : World) (request : Request) : Eff Response :=
  response ← perform (EvCallNext request) (call_next w request);
  suppress ← scanner_filter w request response;
  if suppress : bool then (mret response : Eff Response)
  else access_log w request response ;; mret response.

Definition log_requests (w : World) (request : Request) : Eff Response :=
  log_request_body w request ;;
  respond w request.

(** The two records of the access log, as events. *)
Definition access_lines (w : World) (request : Request) (response : Response) : list event :=
  fst (access_log w request response).

(** The same world with another next stage. *)
Definition with_call_next (next : Request -> raised + Response) (w : World) : World :=
  {| request_body := request_body w;
     decode := decode w;
     scrub_text := scrub_text w;
     call_next := next;
     url_path_fault := url_path_fault w;
     process_time_3f := process_time_3f w |}.

(** ** [_add_middleware]: the order of the stages *)

Inductive middleware : Type :=
| CORSMiddleware
| ForwardedPrefixMiddleware
| log_requests_middleware.

(** [app.add_middleware(m)], and [@app.middleware("http")], which adds a
    function in the same way.  Starlette, which is not part of the
    sources, puts the new middleware in front of those added before, and
    the one in front receives the request first. *)
Definition add_middleware (m : middleware) (user_middleware : list middleware)
  : list middleware :=
  m :: user_middleware.

(** The three additions of [_add_middleware], lines 153-172, in their
    order. *)
Definition _add_middleware (user_middleware : list middleware) : list middleware :=
  add_middleware log_requests_middleware
    (add_middleware ForwardedPrefixMiddleware
       (add_middleware CORSMiddleware user_middleware)).

(** One request through the stages in the order of [_add_middleware []]:
    [log_requests] receives it, its next stage is
    [ForwardedPrefixMiddleware], whose next stage is the CORS middleware
    [cors] of Starlette in front of the application [call_next w]. *)
Definition pipeline (cors : (Request -> raised + Response) -> Request -> raised + Response)
    (w : World) (request : Request) : Eff Response :=
  log_requests (with_call_next (fun r => dispatch r (cors (call_next w))) w) request.

(** The same world with another scrubber. *)
Definition with_scrub_text (scrub : pystr -> raised + (pystr * list PiiHit)) (w : World) : World :=
  {| request_body := request_body w;
     decode := decode w;
     scrub_text := scrub;
     call_next := call_next w;
     url_path_fault := url_path_fault w;
     process_time_3f := process_time_3f w |}.

(** The body stage fails with the exception [e] of class [Exception]:
    reading the body raises it, or the body is read and is not empty and
    the scrubber raises it ([decode] does not raise). *)
Definition body_stage_fails (w : World) (e : pystr) : Prop :=
  request_body w = inl (PyException e)
  \/ exists body, request_body w = inr body /\ body <> []
                  /\ scrub_text w (decode w body) = inl (PyException e).

(** The log records of a trace, and the warnings among them. *)
Definition records (t : list event) : list log_record :=
  omap (fun ev => match ev with EvLog r => Some r | _ => None end) t.

Definition warnings (t : list event) : list log_record :=
  filter (fun r => log_level r = WARNING) (records t).

End AppFactory.

(* ===================================================================== *)
(** * Concrete requests, flows and collaborators *)
(* ===================================================================== *)

Module Samples.
Import FlowRouter AppFactory.

(** [bytes] that are ASCII decode to the characters of the same number;
    on such bodies this is UTF-8 decoding.  Other bytes become U+FFFD. *)
Definition decode_ascii (body : list Byte.byte) : pystr :=
  (fun b => let n := Byte.to_N b in if n <? 128 then n else 0xFFFD) <$> body.

Definition bytes_of (s : string) : list Byte.byte := list_byte_of_string s.

(** A scrubber that masks nothing and one that always reports the same
    three matches, two of them of the same category. *)
Definition scrub_nothing (text : pystr) : raised + (pystr * list PiiHit) :=
  inr (text, []).

Definition scrub_three (text : pystr) : raised + (pystr * list PiiHit) :=
  inr (text, [ {| hit_type := py "phone"; hit_span := (0, 4)%Z |};
               {| hit_type := py "email"; hit_span := (5, 9)%Z |};
               {| hit_type := py "phone"; hit_span := (10, 14)%Z |} ]).

Definition scrub_fails (text : pystr) : raised + (pystr * list PiiHit) :=
  inl (PyException (py "pattern error")).

(** A world in which the next stage answers every request with [status]. *)
Definition world (body : raised + list Byte.byte)
    (scrub : pystr -> raised + (pystr * list PiiHit))
    (status : Z) (fault : option raised) : World :=
  {| request_body := body;
     decode := decode_ascii;
     scrub_text := scrub;
     call_next := fun _ => inr {| status_code := status |};
     url_path_fault := fault;
     process_time_3f := py "0.002" |}.

Definition request (m path : string) : Request :=
  {| method := py m;
     url_path := py path;
     headers := [];
     client := Some (py "203.0.113.7", 51234%Z);
     root_path := [] |}.

(** A request behind a proxy: the application is mounted under [/api]
    and the proxy sends the header [x-forwarded-prefix] with [value]. *)
Definition proxied (value : string) : Request :=
  {| method := py "GET";
     url_path := py "/health";
     headers := [ (py "host", py "example.org"); (py "x-forwarded-prefix", py value) ];
     client := None;
     root_path := py "/api" |}.

Definition summarize : FlowRead :=
  {| endpoint := py "summarize";
     description := py "Summarize a text";
     flow_body := BodyPlain (JObj [ (py "nodes", JArr []) ]) |}.

Definition summarize_v2 : FlowRead :=
  {| endpoint := py "summarize";
     description := py "Summarize a text, second version";
     flow_body := BodyModel (JObj [ (py "nodes", JArr [JNum 1]) ]) |}.

Definition fresh_service : FlowRouterService :=
  init {| app_routes := []; openapi_schema := Some (JObj []) |}.

(** The texts between an opening brace and the next closing brace of a
    path: the names of its parameters. *)
Fixpoint braces (path : pystr) (name : option pystr) : list pystr :=
  match path with
  | [] => []
  | c :: rest =>
      match name with
      | None => if c =? 123 then braces rest (Some []) else braces rest None
      | Some n =>
          if c =? 125 then rev n :: braces rest None
          else if c =? 123 then braces rest (Some [])
          else braces rest (Some (c :: n))
      end
  end.

(** The names that occur more than once, each once, in increasing order. *)
Definition duplicated (names : list pystr) : list pystr :=
  merge_sort str_le
    (remove_dups (filter (fun n => (1 < length (filter (fun m => m = n) names))%nat) names)).

(** A framework for the examples.  Like Starlette it refuses a path that
    names a parameter twice, with the same message.  It matches a route
    against the path it is declared on, which is how a path without
    parameters is matched; the examples serve no other. *)
Definition framework : Framework :=
  {| declare_route := fun path =>
       match duplicated (braces path None) with
       | [] => inr tt
       | names =>
           inl (PyException
                  (py "Duplicated param name" ++ (if (1 <? length names)%nat then py "s" else [])
                   ++ py " " ++ join (py ", ") names ++ py " at path " ++ path))
       end;
     route_matches := fun declared path => bool_decide (path = declared) |}.

(** A flow whose endpoint names a parameter twice. *)
Definition twice : FlowRead :=
  {| endpoint := py "{a}{a}";
     description := py "A parameter named twice";
     flow_body := BodyPlain (JObj []) |}.

Definition engine_ok (flow_data inputs : json) : raised + ExecutionResult :=
  inr {| success := true; outputs := JObj [ (py "text", JStr (py "done")) ];
         error := JNull; session_id := JStr (py "s-1"); execution_time := JNum 3 |}.

Definition engine_failed (flow_data inputs : json) : raised + ExecutionResult :=
  inr {| success := false; outputs := JNull;
         error := JStr (py "missing input"); session_id := JNull; execution_time := JNull |}.

Definition engine_raises (flow_data inputs : json) : raised + ExecutionResult :=
  inl (PyException (py "connection refused")).

(** The call of the engine is cancelled: [asyncio.CancelledError] is not
    an [Exception]. *)
Definition engine_cancelled (flow_data inputs : json) : raised + ExecutionResult :=
  inl (PyBaseException []).

(** The service after [summarize] was registered. *)
Definition service_with_summarize : FlowRouterService :=
  state_of (add_flow_route framework summarize fresh_service).

(** GET requests that the application answers with 404 or 200. *)
Definition world_404 : World := world (inr []) scrub_nothing 404 None.
Definition world_200 : World := world (inr []) scrub_nothing 200 None.

Definition get_run_summarize : Request := request "GET" "/run/summarize".
Definition get_favicon : Request := request "GET" "/favicon.ico".
Definition get_root : Request := request "GET" "/".
Definition get_health : Request := request "GET" "/health".

(** A POST request with a body in which the scrubber finds three matches. *)
Definition post_chat : Request := request "POST" "/v1/chat/completions".


(** A POST request with a body of 501 characters, all [a]. *)
Definition world_long : World :=
  world (inr (repeat Byte.x61 501)) scrub_nothing 200 None.

(** A POST request without a body; the scrubber would fail if called. *)
Definition world_empty_body : World := world (inr []) scrub_fails 200 None.

(** The body cannot be read. *)
Definition world_faults : World :=
  world (inl (PyException (py "client disconnected"))) scrub_nothing 200 None.

(** The path of the request cannot be read. *)
Definition world_url_path_fault : World :=
  world (inr []) scrub_nothing 200 (Some (PyException (py "boom"))).

(** A CORS stage that hands every request on. *)
Definition cors_through (next : Request -> raised + Response) : Request -> raised + Response :=
  next.

End Samples.

(* ===================================================================== *)
(** * Sequences of calls on the route registry *)
(* ===================================================================== *)

Module RegistryRuns.
Import FlowRouter.

(** One call of a public method of [FlowRouterService]. *)
Inductive call : Type :=
| AddFlowRoute (flow : FlowRead)
| RemoveFlowRoute (flow_endpoint : pystr).

Definition run_call (fw : Framework) (c : call) : Svc (raised + unit) :=
  match c with
  | AddFlowRoute flow => add_flow_route fw flow
  | RemoveFlowRoute flow_endpoint => remove_flow_route flow_endpoint ;; mret (inr tt)
  end.

(** The service object after the calls [cs], made one after the other;
    a call that raises is followed by the next call all the same. *)
Fixpoint run_calls (fw : Framework) (cs : list call) (s : FlowRouterService)
  : FlowRouterService :=
  match cs with
  | [] => s
  | c :: cs' => run_calls fw cs' (state_of (run_call fw c s))
  end.

(** What the route table promises about the application: an entry under
    [path] is the router built for a flow of that path, and the route of
    that router is among the routes of the application. *)
Definition registry_ok (s : FlowRouterService) : Prop :=
  forall path router,
    dynamic_routers s !! path = Some router ->
    exists flow,
      path = run_path (endpoint flow)
      /\ router = flow_router flow
      /\ forall r, r ∈ router_routes router -> r ∈ app_routes (app s).

(** The routes of the application declared on [path]. *)
Definition routes_at (path : pystr) (a : FastAPI) : list Route :=
  filter (fun r => route_path r = path) (app_routes a).

End RegistryRuns.

(* ===================================================================== *)
(** * What a trace of [log_requests] contains *)
(* ===================================================================== *)

Module Traces.
Import AppFactory.

(** The requests passed to the next stage, in order. *)
Definition dispatched (t : list event) : list Request :=
  omap (fun ev => match ev with EvCallNext r => Some r | _ => None end) t.

(** The texts given to the scrubber, in order. *)
Definition scrubbed (t : list event) : list pystr :=
  omap (fun ev => match ev with EvScrub text => Some text | _ => None end) t.

(** How often the body of the request was read. *)
Definition body_reads (t : list event) : nat :=
  length (omap (fun ev => match ev with EvBodyRead => Some tt | _ => None end) t).

End Traces.

(* ===================================================================== *)
(** * core/app_factory.py: [initialize_database], [build_agents], [create_app] *)
(* ===================================================================== *)

Module Bootstrap.

(** The non-ASCII characters of the start-up messages. *)
Definition ARROWS : pystr := [0x1F504].      (* U+1F504 *)
Definition CROSS_MARK : pystr := [0x274C].   (* U+274C *)
Definition ROBOT : pystr := [0x1F916].       (* U+1F916 *)

(** [s.lower()] on the letters of ASCII; Python's [lower] agrees with it
    on every [str] whose characters are all ASCII. *)
Definition ascii_lower (s : pystr) : pystr :=
  (fun c => if (65 <=? c) && (c <=? 90) then c + 32 else c) <$> s.

Definition is_ascii (s : pystr) : Prop := Forall (fun c => c < 128) s.

Section WithAgents.

(** The agent graphs, their tool descriptions and their model ids are
    objects of [core.graph_builder], which is not part of the sources. *)
Context {Agent Tools ModelId : Type}.

(** The attributes of an [AppFactory] object; [None] is Python's [None]. *)
Record AppFactoryObj : Type := {
  agent : option Agent;
  aider_agent : option Agent;
  tool_descriptions : option Tools;
  aider_tool_descriptions : option Tools;
  agent_model_id : option ModelId;
  aider_agent_model_id : option ModelId
}.

(** [AppFactory.__init__] *)
Definition new_factory : AppFactoryObj :=
  {| agent := None; aider_agent := None;
     tool_descriptions := None; aider_tool_descriptions := None;
     agent_model_id := None; aider_agent_model_id := None |}.

(** The arguments of [FastAPI(...)] that [create_app] computes, with the
    version and [root_path_in_servers]; the title, the description, the
    contact, the licence, the tag metadata and the Swagger parameters are
    constant texts and are left out. *)
Record AppSettings : Type := {
  version : pystr;
  docs_url : option pystr;
  redoc_url : option pystr;
  openapi_url : option pystr;
  root_path : pystr;
  root_path_in_servers : bool
}.

(** What [create_app] does to the outside, in order. *)
Inductive boot_event : Type :=
| BootLog (r : log_record)
| CallLoadDotenv
| CallDictConfig
| CallInitDatabase
| CallBuildAgentGraph
| CallBuildAiderAgentGraph
| CallFastAPI (settings : AppSettings)
| CallAddMiddleware
| CallRegisterRouters
| CallSetAgentInfo (agent : option Agent) (model_id : option ModelId).

(** The collaborators of [create_app].

    - [environ]: [os.environ] as [os.getenv] sees it, that is after
      [load_dotenv()];
    - [lower]: [str.lower];
    - [init_database]: how [init_database()] of [core.database] ends;
    - [build_agent_graph], [build_aider_agent_graph]: how the two
      builders of [core.graph_builder] end;
    - [new_FastAPI settings]: how the call [FastAPI(...)] ends;
    - [add_middleware_ends]: how [self._add_middleware(app)] ends;
    - [register_routers_ends]: how [self._register_routers(app)] ends,
      which imports modules and builds [DynamicToolsAPI()];
    - [set_agent_info]: how [set_agent_info] of [api.chat_api] ends.

    The first two calls, [load_dotenv()] and [dictConfig(LOGGING_CONFIG)],
    are recorded and taken to return: a run in which one of them raises
    ends before [init_database] is called. *)
Record Boot : Type := {
  environ : gmap pystr pystr;
  lower : pystr -> pystr;
  init_database : raised + bool;
  build_agent_graph : raised + (Agent * Tools * ModelId);
  build_aider_agent_graph : raised + (Agent * Tools * ModelId);
  new_FastAPI : AppSettings -> raised + unit;
  add_middleware_ends : raised + unit;
  register_routers_ends : raised + unit;
  set_agent_info : option Agent -> option ModelId -> raised + unit
}.

(** A computation of the start-up leaves a trace and returns or raises. *)
Definition Run (A : Type) : Type := list boot_event * (raised + A).

#[export] Instance run_ret : MRet Run := fun A a => ([], inr a).

#[export] Instance run_bind : MBind Run := fun A B f m =>
  match m with
  | (t, inl e) => (t, inl e)
  | (t, inr a) => let '(t', r) := f a in (t ++ t', r)
  end.

Definition outside_call {A} (ev : boot_event) (outcome : raised + A) : Run A :=
  ([ev], outcome).
Definition done_call (ev : boot_event) : Run unit := ([ev], inr tt).
Definition boot_raise {A} (e : raised) : Run A := ([], inl e).
Definition boot_info (msg : pystr) : Run unit := ([BootLog (log INFO msg)], inr tt).
Definition boot_error (msg : pystr) : Run unit := ([BootLog (log ERROR msg)], inr tt).

(** [os.getenv(name, fallback)] *)
Definition getenv (b : Boot) (name fallback : pystr) : pystr :=
  default fallback (environ b !! name).

(** [AppFactory.initialize_database] *)
Definition initialize_database (b : Boot) : Run bool :=
  boot_info (ARROWS ++ py " Initializing database...") ;;
  ok ← outside_call CallInitDatabase (init_database b);
  if ok : bool then
    boot_info (CHECK_MARK ++ py " Database initialized successfully") ;; mret true
  else
    boot_error (CROSS_MARK ++ py " Database initialization failed") ;; mret false.

(** [AppFactory.build_agents]: returns the object with its six
    attributes assigned. *)
Definition build_agents (b : Boot) (self : AppFactoryObj) : Run AppFactoryObj :=
  boot_info (ROBOT ++ py " Building agent graphs...") ;;
  '(a, tools, model) ← outside_call CallBuildAgentGraph (build_agent_graph b);
  let self :=
    {| agent := Some a; aider_agent := aider_agent self;
       tool_descriptions := Some tools;
       aider_tool_descriptions := aider_tool_descriptions self;
       agent_model_id := Some model; aider_agent_model_id := aider_agent_model_id self |} in
  '(a', tools', model') ← outside_call CallBuildAiderAgentGraph (build_aider_agent_graph b);
  let self :=
    {| agent := agent self; aider_agent := Some a';
       tool_descriptions := tool_descriptions self;
       aider_tool_descriptions := Some tools';
       agent_model_id := agent_model_id self; aider_agent_model_id := Some model' |} in
  boot_info (CHECK_MARK ++ py " Agent graphs built successfully") ;;
  mret self.

(** The trace of [create_app] up to the answer of [init_database]. *)
Definition boot_prefix : list boot_event :=
  [ CallLoadDotenv; CallDictConfig;
    BootLog (log INFO (ARROWS ++ py " Initializing database..."));
    CallInitDatabase ].

(** The object that [build_agents] leaves. *)
Definition built (a a' : Agent) (t t' : Tools) (m m' : ModelId) : AppFactoryObj :=
  {| agent := Some a; aider_agent := Some a';
     tool_descriptions := Some t; aider_tool_descriptions := Some t';
     agent_model_id := Some m; aider_agent_model_id := Some m' |}.

(** Lines 65-67 of [create_app]. *)
Definition app_env (b : Boot) : pystr := lower b (getenv b (py "APP_ENV") []).
Definition docs_flag (b : Boot) : pystr := lower b (getenv b (py "ENABLE_DOCS") []).

Definition expose_docs (b : Boot) : bool :=
  bool_decide (docs_flag b ∈ [py "1"; py "true"; py "yes"; py "on"])
  || bool_decide (app_env b ∈ [py "development"; py "local"]).

(** Lines 69-73 and the call of [FastAPI]. *)
Definition app_settings (b : Boot) : AppSettings :=
  {| version := py "1.0.0";
     docs_url := if expose_docs b then Some (py "/docs") else None;
     redoc_url := if expose_docs b then Some (py "/redoc") else None;
     openapi_url := if expose_docs b then Some (py "/openapi.json") else None;
     root_path := getenv b (py "ROOT_PATH") [];
     root_path_in_servers := true |}.

(** [AppFactory.create_app]: the object after the call and the settings
    of the application it returns. *)
Definition create_app (b : Boot) (self : AppFactoryObj) : Run (AppFactoryObj * AppSettings) :=
  done_call CallLoadDotenv ;;
  done_call CallDictConfig ;;
  ok ← initialize_database b;
  (if negb ok then boot_raise (PyException (py "Database initialization failed"))
   else mret tt) ;;
  self ← build_agents b self;
  let settings := app_settings b in
  outside_call (CallFastAPI settings) (new_FastAPI b settings) ;;
  outside_call CallAddMiddleware (add_middleware_ends b) ;;
  outside_call CallRegisterRouters (register_routers_ends b) ;;
  outside_call (CallSetAgentInfo (agent self) (agent_model_id self))
    (set_agent_info b (agent self) (agent_model_id self)) ;;
  mret (self, settings).

End WithAgents.

Arguments AppFactoryObj : clear implicits.
Arguments boot_event : clear implicits.
Arguments Boot : clear implicits.
Arguments Run : clear implicits.

End Bootstrap.

(* ===================================================================== *)
(** * More concrete inputs *)
(* ===================================================================== *)

Module Scenarios.
Import FlowRouter AppFactory Bootstrap Samples.

Definition translate : FlowRead :=
  {| endpoint := py "translate";
     description := py "Translate a text";
     flow_body := BodyPlain (JObj []) |}.

(** The next stage fails. *)
Definition world_down : World :=
  {| request_body := inr (bytes_of "{}");
     decode := decode_ascii;
     scrub_text := scrub_nothing;
     call_next := fun _ => inl (PyException (py "handler crashed"));
     url_path_fault := None;
     process_time_3f := py "0.002" |}.

(** The client goes away while the body is read. *)
Definition world_cancelled : World :=
  world (inl (PyBaseException (py "cancelled"))) scrub_nothing 200 None.

Definition post_root_404 : Request := request "POST" "/".

(** A start-up in which everything works; the agents, the tools and the
    model ids are numbers. *)
Definition boot (env : list (pystr * pystr)) (db : raised + bool) : Boot nat nat nat :=
  {| environ := list_to_map env;
     lower := ascii_lower;
     init_database := db;
     build_agent_graph := inr (1, 10, 100)%nat;
     build_aider_agent_graph := inr (2, 20, 200)%nat;
     new_FastAPI := fun _ => inr tt;
     add_middleware_ends := inr tt;
     register_routers_ends := inr tt;
     set_agent_info := fun _ _ => inr tt |}.

(** A start-up in which a module that [_register_routers] imports is
    missing. *)
Definition boot_without_tools : Boot nat nat nat :=
  {| environ := ∅;
     lower := ascii_lower;
     init_database := inr true;
     build_agent_graph := inr (1, 10, 100)%nat;
     build_aider_agent_graph := inr (2, 20, 200)%nat;
     new_FastAPI := fun _ => inr tt;
     add_middleware_ends := inr tt;
     register_routers_ends := inl (PyException (py "No module named 'api.tools'"));
     set_agent_info := fun _ _ => inr tt |}.

(** Documentation switched off by [ENABLE_DOCS], in a development
    environment. *)
Definition boot_dev : Boot nat nat nat :=
  boot [ (py "ENABLE_DOCS", py "false"); (py "APP_ENV", py "Development") ] (inr true).

(** Two flows are registered and the first is removed again. *)
Definition two_added_one_removed : list RegistryRuns.call :=
  [ RegistryRuns.AddFlowRoute summarize; RegistryRuns.AddFlowRoute translate;
    RegistryRuns.RemoveFlowRoute (py "summarize") ].

End Scenarios.

(* ===================================================================== *)
(** * Facts about Python strings *)
(* ===================================================================== *)

Section PyStrFacts.

Implicit Types (s p t chars : pystr).

Lemma startswith_spec s p : startswith s p = true <-> exists t, s = p ++ t.
Proof.
  revert s. induction p as [|c p IH]; intros s; simpl.
  - split; [intros _; by exists s|done].
  - destruct s as [|d s].
    + split; [done|intros [t Ht]; discriminate].
    + rewrite andb_true_iff, N.eqb_eq, IH. split.
      * intros [-> [t ->]]. by exists t.
      * intros [t [= -> ->]]. eauto.
Qed.

Lemma endswith_spec s p : endswith s p = true <-> exists t, s = t ++ p.
Proof.
  unfold endswith. rewrite andb_true_iff, Nat.leb_le, bool_decide_eq_true. split.
  - intros [Hle Hd]. exists (take (length s - length p) s).
    pose proof (take_drop (length s - length p) s) as Htd. congruence.
  - intros [t ->]. rewrite length_app. split; [lia|].
    replace (length t + length p - length p)%nat with (length t) by lia.
    by rewrite drop_app_length.
Qed.

(** [rstrip] removes a run of characters of [chars] at the end ... *)
Lemma rstrip_removed s chars :
  exists k, s = rstrip s chars ++ k /\ Forall (fun c => c ∈ chars) k.
Proof.
  induction s as [|c s (k & Hk & Hall)]; simpl.
  - by exists [].
  - destruct (rstrip s chars) as [|d r] eqn:Hr.
    + case_bool_decide as Hc.
      * exists (c :: k). simpl in Hk. subst k. split; [done|by constructor].
      * exists k. simpl in *. by subst k.
    + exists k. split; [|done]. simpl. by rewrite Hk at 1.
Qed.

(** ... and the whole run: what is left does not end in one of them. *)
Lemma rstrip_last s chars r c : rstrip s chars = r ++ [c] -> c ∉ chars.
Proof.
  revert r. induction s as [|d s IH]; intros r; simpl.
  - by destruct r.
  - destruct (rstrip s chars) as [|e q] eqn:Hq.
    + case_bool_decide as Hd; [by destruct r|].
      destruct r as [|? [|? ?]]; intros [= <-]; done.
    + destruct r as [|x r]; [by intros [= _ ?]|].
      intros [= _ Hr]. by apply (IH r).
Qed.

Lemma rstrip_nil_iff s chars : rstrip s chars = [] <-> Forall (fun c => c ∈ chars) s.
Proof.
  induction s as [|c s IH]; simpl; [done|].
  destruct (rstrip s chars) as [|e q] eqn:Hq.
  - case_bool_decide as Hc.
    + split; [intros _; constructor; [done|by apply IH]|done].
    + split; [done|]. by intros [? ?]%Forall_cons.
  - split; [done|]. intros [_ Hs]%Forall_cons. by apply IH in Hs.
Qed.

Lemma str_leb_refl s : str_leb s s = true.
Proof.
  induction s as [|c s IH]; simpl; [done|].
  by rewrite N.eqb_refl, IH, orb_true_r.
Qed.

#[export] Instance str_le_total : Total str_le.
Proof.
  intros a. unfold str_le. induction a as [|x a IH]; intros [|y b]; simpl; auto.
  destruct (N.ltb_spec x y), (N.ltb_spec y x), (N.eqb_spec x y), (N.eqb_spec y x);
    simpl; auto; try lia; try congruence.
Qed.

#[export] Instance str_le_trans : Transitive str_le.
Proof.
  intros a. unfold str_le. induction a as [|x a IH]; intros [|y b] [|z c]; simpl; auto;
    try discriminate.
  rewrite !orb_true_iff, !andb_true_iff, !N.ltb_lt, !N.eqb_eq.
  intros [?|[-> ?]] [?|[-> ?]]; auto; [left; lia|]. right. eauto.
Qed.

Lemma str_le_antisym a b : str_le a b -> str_le b a -> a = b.
Proof.
  unfold str_le. revert b. induction a as [|x a IH]; intros [|y b]; simpl; auto;
    try discriminate.
  rewrite !orb_true_iff, !andb_true_iff, !N.ltb_lt, !N.eqb_eq.
  intros [?|[-> ?]] [?|[? ?]]; try lia. f_equal. auto.
Qed.

End PyStrFacts.

(* ===================================================================== *)
(** * Properties of the dynamic route registry *)
(* ===================================================================== *)

Section RegistryFacts.
Import FlowRouter.

Variable fw : Framework.
Implicit Types (s : FlowRouterService) (flow : FlowRead) (path : pystr).

Lemma add_flow_route_present s flow :
  is_Some (dynamic_routers s !! run_path (endpoint flow)) ->
  add_flow_route fw flow s
  = (inr tt, s,
     [log INFO (py "Route " ++ run_path (endpoint flow) ++ py " already exists. Skipping.")]).
Proof.
  intros Hin. unfold add_flow_route, mbind, svc_bind, get_dynamic_routers.
  rewrite bool_decide_eq_true_2 by exact Hin. reflexivity.
Qed.

Lemma add_flow_route_absent s flow :
  dynamic_routers s !! run_path (endpoint flow) = None ->
  declare_route fw (run_path (endpoint flow)) = inr tt ->
  add_flow_route fw flow s
  = (inr tt, inserted flow s,
     [log INFO (CHECK_MARK ++ py " Dynamically added route: POST " ++ run_path (endpoint flow))]).
Proof.
  intros Hout Hok. unfold add_flow_route, mbind, svc_bind, get_dynamic_routers.
  rewrite bool_decide_eq_false_2 by (rewrite Hout; apply is_Some_None).
  rewrite Hok. reflexivity.
Qed.

Lemma add_flow_route_declaration_refused s flow e :
  dynamic_routers s !! run_path (endpoint flow) = None ->
  declare_route fw (run_path (endpoint flow)) = inl e ->
  add_flow_route fw flow s = (inl e, s, []).
Proof.
  intros Hout Hno. unfold add_flow_route, mbind, svc_bind, get_dynamic_routers.
  rewrite bool_decide_eq_false_2 by (rewrite Hout; apply is_Some_None).
  rewrite Hno. reflexivity.
Qed.



Lemma remove_flow_route_present s flow_endpoint :
  is_Some (dynamic_routers s !! run_path flow_endpoint) ->
  remove_flow_route flow_endpoint s
  = (tt, deactivated flow_endpoint s,
     [log INFO (WARNING_SIGN ++ py " Dynamically 'deactivated' route: " ++ run_path flow_endpoint
                ++ py ". Full removal requires restart.")]).
Proof.
  intros Hin. unfold remove_flow_route, mbind, svc_bind, get_dynamic_routers.
  rewrite bool_decide_eq_true_2 by exact Hin. reflexivity.
Qed.

Lemma remove_flow_route_absent s flow_endpoint :
  dynamic_routers s !! run_path flow_endpoint = None ->
  remove_flow_route flow_endpoint s
  = (tt, s, [log WARNING (py "Route " ++ run_path flow_endpoint ++ py " not found for removal.")]).
Proof.
  intros Hout. unfold remove_flow_route, mbind, svc_bind, get_dynamic_routers.
  rewrite bool_decide_eq_false_2; [reflexivity|].
  rewrite Hout. apply is_Some_None.
Qed.

(** A list without duplicates whose only possible element is [a], and
    which has it, is [[a]]. *)
Lemma NoDup_only {A} (a : A) (l : list A) :
  NoDup l -> (forall x, x ∈ l <-> x = a) -> l = [a].
Proof.
  intros Hnd Hel. destruct l as [|x l].
  - exfalso. eapply not_elem_of_nil. apply Hel. reflexivity.
  - assert (x = a) as -> by (apply Hel; left).
    f_equal. destruct l as [|y l]; [reflexivity|exfalso].
    assert (y = a) as -> by (apply Hel; right; left).
    apply NoDup_cons in Hnd as [Hn _]. apply Hn. left.
Qed.

(** A key of the route table has exactly the one entry that [lookup] finds. *)
Lemma entries_at_lookup path (routers : gmap pystr APIRouter) r :
  routers !! path = Some r -> entries_at path routers = [(path, r)].
Proof.
  intros Hl. unfold entries_at. apply NoDup_only.
  - apply NoDup_filter, NoDup_map_to_list.
  - intros [k v]. rewrite list_elem_of_filter, elem_of_map_to_list. simpl. split.
    + intros [-> Hk]. congruence.
    + intros [= -> ->]. done.
Qed.

Lemma entries_at_absent path (routers : gmap pystr APIRouter) :
  routers !! path = None -> entries_at path routers = [].
Proof.
  intros Hl. unfold entries_at. apply elem_of_nil_inv. intros [k v].
  rewrite list_elem_of_filter, elem_of_map_to_list. simpl.
  intros [-> Hk]. congruence.
Qed.

Lemma serves_app s path r :
  r ∈ app_routes (app s) -> route_path r = path -> py "POST" ∈ route_methods r ->
  serves (app s) path = true.
Proof.
  intros Hin Hp Hm. unfold serves, any. apply existsb_exists.
  exists r. split; [by apply list_elem_of_In|].
  by rewrite !bool_decide_eq_true_2.
Qed.

Lemma answers_app s path r :
  r ∈ app_routes (app s) -> route_matches fw (route_path r) path = true ->
  py "POST" ∈ route_methods r ->
  answers fw (app s) path = true.
Proof.
  intros Hin Hp Hm. unfold answers, any. apply existsb_exists.
  exists r. split; [by apply list_elem_of_In|].
  by rewrite Hp, bool_decide_eq_true_2.
Qed.

End RegistryFacts.

Section Registry.
Import FlowRouter.

Variable fw : Framework.
Implicit Types (s : FlowRouterService) (flow : FlowRead) (path : pystr).


(** C4 (amended).  On a path that is not yet in the route table and whose
    declaration the framework accepts, [add_flow_route] derives the path as
    ["/run/" + endpoint], returns, stores [path -> router] in
    [dynamic_routers], appends to the routes of the application one POST
    route declared on that path whose handler is bound to [flow], and sets
    [openapi_schema] to [None].  The application then has a POST route
    declared on the path, and it answers a POST to the path if the framework
    matches the route against the path it is declared on. *)
Theorem add_flow_route_registers s flow :
  dynamic_routers s !! run_path (endpoint flow) = None ->
  declare_route fw (run_path (endpoint flow)) = inr tt ->
  let path := py "/run/" ++ endpoint flow in
  let s' := state_of (add_flow_route fw flow s) in
  result_of (add_flow_route fw flow s) = inr tt
  /\ dynamic_routers s' = <[path := flow_router flow]> (dynamic_routers s)
  /\ dynamic_routers s' !! path = Some (flow_router flow)
  /\ (exists r, router_routes (flow_router flow) = [r]
        /\ route_path r = path /\ route_methods r = [py "POST"] /\ route_flow r = flow
        /\ app_routes (app s') = app_routes (app s) ++ [r])
  /\ serves (app s') path = true
  /\ (route_matches fw path path = true -> answers fw (app s') path = true)
  /\ openapi_schema (app s') = None.
Proof.
  intros Hout Hok path s'. subst s'. rewrite add_flow_route_absent by done.
  unfold state_of, result_of. cbn [fst snd]. subst path. fold (run_path (endpoint flow)).
  split; [reflexivity|].
  split; [reflexivity|]. split; [apply lookup_insert_eq|].
  split; [eexists; repeat split; reflexivity|].
  split; [|split; [|reflexivity]].
  - eapply serves_app.
    + unfold inserted, flow_router. cbn [app app_routes router_routes].
      apply elem_of_app. right. left.
    + reflexivity.
    + cbn [route_methods]. left.
  - intros Hm. eapply answers_app.
    + unfold inserted, flow_router. cbn [app app_routes router_routes].
      apply elem_of_app. right. left.
    + exact Hm.
    + cbn [route_methods]. left.
Qed.


(** C10 (amended).  After [remove_flow_route (endpoint flow)], whatever
    the service object was, the path ["/run/" + endpoint] is not in the
    route table.  [add_flow_route flow] then does not take the branch
    "already exists": if the framework accepts the declaration of the route
    it writes the line "Dynamically added route", stores the router of
    [flow] under the path, attaches its route, and the route table holds
    exactly one entry under the path; if the framework refuses the
    declaration the call raises and the route table holds no entry under
    the path. *)
Theorem remove_then_add_reinserts s flow :
  let path := py "/run/" ++ endpoint flow in
  let s1 := state_of (remove_flow_route (endpoint flow) s) in
  let out := add_flow_route fw flow s1 in
  dynamic_routers s1 !! path = None
  /\ (declare_route fw path = inr tt ->
        out = (inr tt, inserted flow s1,
               [log INFO (CHECK_MARK ++ py " Dynamically added route: POST " ++ path)])
        /\ dynamic_routers (state_of out) = <[path := flow_router flow]> (dynamic_routers s)
        /\ entries_at path (dynamic_routers (state_of out)) = [(path, flow_router flow)]
        /\ app_routes (app (state_of out))
           = app_routes (app s) ++ router_routes (flow_router flow)
        /\ openapi_schema (app (state_of out)) = None)
  /\ (forall e, declare_route fw path = inl e ->
        out = (inl e, s1, [])
        /\ entries_at path (dynamic_routers (state_of out)) = []).
Proof.
  intros path s1 out. change path with (run_path (endpoint flow)).
  assert (dynamic_routers s1 !! run_path (endpoint flow) = None
          /\ <[run_path (endpoint flow) := flow_router flow]> (dynamic_routers s1)
             = <[run_path (endpoint flow) := flow_router flow]> (dynamic_routers s)
          /\ app_routes (app s1) = app_routes (app s)) as (Hout & Hins & Happ).
  { subst s1.
    destruct (dynamic_routers s !! run_path (endpoint flow)) as [r|] eqn:Hl.
    - rewrite remove_flow_route_present by (rewrite Hl; eauto).
      unfold state_of, deactivated. simpl.
      split; [apply lookup_delete_eq|]. split; [apply insert_delete_eq|reflexivity].
    - rewrite remove_flow_route_absent by exact Hl. unfold state_of. simpl. done. }
  split; [exact Hout|]. split.
  - intros Hok.
    assert (out = (inr tt, inserted flow s1,
              [log INFO (CHECK_MARK ++ py " Dynamically added route: POST "
                         ++ run_path (endpoint flow))])) as Heq.
    { subst out. by apply add_flow_route_absent. }
    split; [exact Heq|]. rewrite Heq. unfold state_of, inserted. simpl.
    fold (run_path (endpoint flow)).
    split; [exact Hins|].
    split; [apply entries_at_lookup, lookup_insert_eq|].
    split; [by rewrite Happ|reflexivity].
  - intros e Hno.
    assert (out = (inl e, s1, [])) as Heq
      by (subst out; by apply add_flow_route_declaration_refused).
    split; [exact Heq|]. rewrite Heq. unfold state_of. cbn [fst snd].
    by apply entries_at_absent.
Qed.

End Registry.

(* ===================================================================== *)
(** * Properties of the handler of a dynamic route *)
(* ===================================================================== *)

Section Envelope.
Import FlowRouter.

Variable execute_flow : json -> json -> raised + ExecutionResult.

(** C2 (amended).  Whatever the call of the engine does short of raising
    outside [Exception], the handler returns a JSON object and raises
    nothing.  A
    result with [success] gives [success: true] with the outputs under
    [result], the session id and the execution time; a result without
    [success] gives [success: false] and the error of the result; a raised
    [Exception] is logged with its traceback and gives [success: false] with
    [str(e)] as the error.  In each case [success] is a boolean and exactly
    one of the keys [result] and [error] is present. *)
Theorem execute_flow_endpoint_envelope (flow : FlowRead) (user_input : json) :
  let outcome := execute_flow (flow_definition flow) user_input in
  let answer := execute_flow_endpoint execute_flow flow user_input in
  (forall e, outcome <> inl (PyBaseException e)) ->
  (forall r, outcome = inr r -> success r = true ->
     answer = ([], inr (JObj [ (py "success", JBool true);
                               (py "result", outputs r);
                               (py "session_id", session_id r);
                               (py "execution_time", execution_time r) ])))
  /\ (forall r, outcome = inr r -> success r = false ->
     answer = ([], inr (JObj [ (py "success", JBool false); (py "error", error r) ])))
  /\ (forall e, outcome = inl (PyException e) ->
     answer = ([ LogRecord ERROR
                   (py "Error executing dynamic flow '" ++ endpoint flow ++ py "': " ++ e)
                   true ],
               inr (JObj [ (py "success", JBool false); (py "error", JStr e) ])))
  /\ (exists fields b,
        snd answer = inr (JObj fields)
        /\ fields_get (py "success") fields = Some (JBool b)
        /\ has_key (py "result") fields = b
        /\ has_key (py "error") fields = negb b).
Proof.
  intros outcome answer Hbase. subst answer. unfold execute_flow_endpoint.
  fold outcome. destruct outcome as [[e|e]|r] eqn:Ho.
  - repeat split; try discriminate.
    + intros e' [= ->]. reflexivity.
    + exists [ (py "success", JBool false); (py "error", JStr e) ], false.
      repeat split; reflexivity.
  - exfalso. by apply (Hbase e).
  - destruct (success r) eqn:Hs.
    + repeat split; try discriminate.
      * intros r' [= <-] _. reflexivity.
      * intros r' [= <-]. congruence.
      * eexists _, true. repeat split; reflexivity.
    + repeat split; try discriminate.
      * intros r' [= <-]. congruence.
      * intros r' [= <-] _. reflexivity.
      * eexists _, false. repeat split; reflexivity.
Qed.

End Envelope.

(* ===================================================================== *)
(** * Properties of [log_requests] *)
(* ===================================================================== *)

Section LogRequests.
Import AppFactory.

Variable w : World.
Implicit Types (request : Request) (response : Response).

Lemma log_request_body_other_method request :
  method request <> py "POST" -> log_request_body w request = ([], inr tt).
Proof.
  intros Hm. unfold log_request_body. by rewrite bool_decide_eq_false_2.
Qed.

Lemma scanner_filter_evaluated request response :
  url_path_fault w = None ->
  scanner_filter w request response
  = ([], inr (is_get_404 request response && is_scanner_like (path_or_root request))).
Proof. intros Hf. unfold scanner_filter, read_url_path. rewrite Hf. reflexivity. Qed.

Lemma scanner_filter_caught request response e :
  url_path_fault w = Some (PyException e) ->
  scanner_filter w request response = ([], inr false).
Proof. intros Hf. unfold scanner_filter, read_url_path. rewrite Hf. reflexivity. Qed.

(** The access log where the path can be read, and where it cannot. *)
Lemma access_log_readable request response :
  url_path_fault w = None ->
  access_log w request response = (access_lines w request response, inr tt)
  /\ length (records (access_lines w request response)) = 2%nat.
Proof.
  intros Hf. unfold access_lines, access_log, read_url_path. rewrite Hf. by split.
Qed.


Lemma respond_with request response (suppress : bool) :
  call_next w request = inr response ->
  url_path_fault w = None ->
  scanner_filter w request response = ([], inr suppress) ->
  respond w request
  = (EvCallNext request :: (if suppress then [] else access_lines w request response),
     inr response).
Proof.
  intros Hc Hp Hf. unfold respond. rewrite Hc. unfold perform, mbind, eff_bind.
  rewrite Hf. destruct suppress; [reflexivity|].
  rewrite (proj1 (access_log_readable request response Hp)).
  unfold mret, eff_ret. cbn [app]. by rewrite app_nil_r.
Qed.


(** The access log is left out exactly when the request is a GET, the
    status is 404 and the path is scanner-like. *)
Lemma respond_suppression_exact request response :
  url_path_fault w = None ->
  call_next w request = inr response ->
  respond w request
  = (EvCallNext request
       :: (if is_get_404 request response && is_scanner_like (path_or_root request)
           then [] else access_lines w request response),
     inr response).
Proof.
  intros Hf Hc. apply respond_with; [exact Hc|exact Hf|]. by apply scanner_filter_evaluated.
Qed.

Lemma respond_head request :
  exists rest, fst (respond w request) = EvCallNext request :: rest.
Proof.
  unfold respond, perform, mbind, eff_bind.
  destruct (call_next w request) as [e|response]; [by eexists|].
  destruct (scanner_filter w request response) as [t [e|b]]; [by eexists|].
  destruct b; [by eexists|].
  destruct (access_log w request response) as [t' [e|[]]]; by eexists.
Qed.

Lemma log_requests_split request :
  snd (log_request_body w request) = inr tt ->
  log_requests w request
  = (fst (log_request_body w request) ++ fst (respond w request), snd (respond w request)).
Proof.
  unfold log_requests, mbind, eff_bind.
  destruct (log_request_body w request) as [t [e|[]]]; simpl; [discriminate|].
  intros _. by destruct (respond w request).
Qed.

(** Every path that begins with a slash counts as scanner traffic, since
    ["/"] is one of [skip_prefixes]. *)
Lemma is_scanner_like_rooted (path : pystr) :
  startswith path (py "/") = true -> is_scanner_like path = true.
Proof.
  intros Hs. unfold is_scanner_like, any, skip_prefixes.
  cbn [existsb]. rewrite Hs. by rewrite orb_true_r.
Qed.

End LogRequests.

Section SortedTypes.
Import AppFactory.




End SortedTypes.

Section Pipeline.
Import AppFactory.

Variable w : World.
Implicit Types (request : Request) (response : Response).

(** C1.  A GET request whose path begins with a slash and that the next
    stage answers with 404 leaves no access-log record, whatever the rest
    of the path is: the prefix ["/"] of [skip_prefixes] matches it.  GET
    [/run/summarize] with 404, which the spec expects to be logged with the
    two records of the access log, is one of them. *)
Theorem log_requests_suppresses_rooted_get_404 request response :
  method request = py "GET" ->
  startswith (url_path request) (py "/") = true ->
  call_next w request = inr response ->
  status_code response = 404%Z ->
  url_path_fault w = None ->
  log_requests w request = ([EvCallNext request], inr response)
  /\ records (fst (log_requests w request)) = [].
Proof.
  intros Hm Hs Hc H404 Hf.
  assert (log_requests w request = ([EvCallNext request], inr response)) as Heq.
  { rewrite log_requests_split;
      rewrite log_request_body_other_method by (rewrite Hm; discriminate); [|reflexivity].
    rewrite (respond_with w request response true Hc Hf); [reflexivity|].
    rewrite scanner_filter_evaluated by exact Hf. do 2 f_equal.
    unfold is_get_404. rewrite Hm, H404. cbn [andb bool_decide].
    rewrite bool_decide_eq_true_2 by reflexivity. cbn.
    apply is_scanner_like_rooted. unfold path_or_root, or_root.
    case_bool_decide as He; [|exact Hs]. by rewrite He in Hs. }
  by rewrite Heq.
Qed.




(** C9.  For a POST request whose body is empty, the body stage reads the
    body and does nothing else: it logs nothing and does not call the
    scrubber, so that the outcome is the same whatever the scrubber is.
    The request is then passed to the next stage as for any other request. *)
Theorem log_requests_empty_post_body request :
  method request = py "POST" ->
  request_body w = inr [] ->
  log_request_body w request = ([EvBodyRead], inr tt)
  /\ log_requests w request = (EvBodyRead :: fst (respond w request), snd (respond w request))
  /\ (exists rest, fst (log_requests w request) = EvBodyRead :: EvCallNext request :: rest)
  /\ (forall scrub, log_requests (with_scrub_text scrub w) request = log_requests w request).
Proof.
  intros Hm Hb.
  assert (forall w', request_body w' = inr [] ->
                     log_request_body w' request = ([EvBodyRead], inr tt)) as Hbody.
  { intros w' Hb'. unfold log_request_body.
    rewrite bool_decide_eq_true_2 by exact Hm. rewrite Hb'. reflexivity. }
  split; [by apply Hbody|].
  assert (log_requests w request
          = (EvBodyRead :: fst (respond w request), snd (respond w request))) as Heq.
  { rewrite log_requests_split; by rewrite (Hbody w Hb). }
  split; [exact Heq|]. split.
  - rewrite Heq. cbn [fst]. destruct (respond_head w request) as [rest ->]. by eexists.
  - intros scrub. rewrite Heq.
    rewrite log_requests_split; rewrite (Hbody (with_scrub_text scrub w) Hb); reflexivity.
Qed.

Lemma log_request_body_failed request e :
  method request = py "POST" -> body_stage_fails w e ->
  snd (log_request_body w request) = inr tt
  /\ records (fst (log_request_body w request))
     = [ {| log_level := WARNING;
            log_msg := WARNING_SIGN ++ py " Could not read request body: " ++ e;
            log_exc_info := false |} ].
Proof.
  intros Hm [Hb|(body & Hb & Hne & Hs)]; unfold log_request_body;
    rewrite bool_decide_eq_true_2 by exact Hm; rewrite Hb;
    unfold perform, mbind, eff_bind, try_except_Exception.
  - split; reflexivity.
  - rewrite bool_decide_eq_true_2 by exact Hne. rewrite Hs. split; reflexivity.
Qed.

(** C7 (amended).  A failure of the body stage does not abort the
    request: an [Exception] raised while the body of a POST request is read
    or scrubbed is caught and logged as one warning, the request is passed
    on, and where the path of the request can be read the response of the
    next stage is returned.  An [Exception] raised while the scanner filter
    is evaluated, by the read of the path, is caught in the block of the
    filter without any log record, and the filter does not suppress the
    response: control goes on to the access log. *)
Theorem log_requests_logging_failures_caught request e_body e_filter :
  (method request = py "POST" -> body_stage_fails w e_body ->
     records (fst (log_request_body w request))
     = [ {| log_level := WARNING;
            log_msg := WARNING_SIGN ++ py " Could not read request body: " ++ e_body;
            log_exc_info := false |} ]
     /\ log_requests w request
        = (fst (log_request_body w request) ++ fst (respond w request),
           snd (respond w request))
     /\ (exists rest, fst (respond w request) = EvCallNext request :: rest)
     /\ (forall response,
           call_next w request = inr response -> url_path_fault w = None ->
           snd (log_requests w request) = inr response))
  /\ (url_path_fault w = Some (PyException e_filter) ->
      forall response, scanner_filter w request response = ([], inr false)).
Proof.
  split.
  - intros Hm Hfail. destruct (log_request_body_failed request e_body Hm Hfail) as [Hok Hrec].
    split; [exact Hrec|].
    split; [by apply log_requests_split|].
    split; [apply respond_head|].
    intros response Hc Hp. rewrite log_requests_split by exact Hok. cbn [snd].
    by rewrite (respond_suppression_exact w request response Hp Hc).
  - intros Hf response. by apply (scanner_filter_caught w request response e_filter).
Qed.

End Pipeline.

(* ===================================================================== *)
(** * Properties of [ForwardedPrefixMiddleware] *)
(* ===================================================================== *)

Section ForwardedPrefix.
Import AppFactory.

(** [log_requests] uses its next stage on the request it was given only. *)
Lemma log_requests_with_call_next (next next' : Request -> raised + Response)
    (w : World) (request : Request) :
  next request = next' request ->
  log_requests (with_call_next next w) request = log_requests (with_call_next next' w) request.
Proof.
  intros Hn. unfold log_requests, respond. cbn [call_next with_call_next].
  rewrite Hn. reflexivity.
Qed.

Variable cors : (Request -> raised + Response) -> Request -> raised + Response.
Variable w : World.

(** C8 (amended).  [_add_middleware] puts the forwarded-prefix stage
    second: [log_requests] receives the request first, and the CORS stage
    and the application come after.  When the request carries the header
    [x-forwarded-prefix] with a value that is not empty, the stages after
    the forwarded-prefix stage see the request with [root_path] set to that
    value without its trailing slashes, and with nothing else changed; the
    middleware is a function of that one request.  When the header is
    missing or its value is empty, they see the request as it came. *)
Theorem forwarded_prefix_rewrite (request : Request) :
  let prefix := headers_get (py "x-forwarded-prefix") (headers request) in
  _add_middleware []
  = [log_requests_middleware; ForwardedPrefixMiddleware; CORSMiddleware]
  /\ (forall value, prefix = Some value -> value <> [] ->
     let stripped := rstrip value (py "/") in
     (forall (A : Type) (next : Request -> A),
        dispatch request next = next (set_root_path request stripped))
     /\ pipeline cors w request
        = log_requests
            (with_call_next (fun _ => cors (call_next w) (set_root_path request stripped)) w)
            request
     /\ root_path (set_root_path request stripped) = stripped
     /\ (exists k, value = stripped ++ k /\ Forall (fun c => c ∈ py "/") k)
     /\ endswith stripped (py "/") = false
     /\ method (set_root_path request stripped) = method request
     /\ url_path (set_root_path request stripped) = url_path request
     /\ headers (set_root_path request stripped) = headers request
     /\ client (set_root_path request stripped) = client request)
  /\ (prefix = None \/ prefix = Some [] ->
     (forall (A : Type) (next : Request -> A), dispatch request next = next request)
     /\ pipeline cors w request
        = log_requests (with_call_next (fun _ => cors (call_next w) request) w) request).
Proof.
  intros prefix. split; [reflexivity|]. split.
  - intros value Hp Hne stripped.
    assert (forall (A : Type) (next : Request -> A),
              dispatch request next = next (set_root_path request stripped)) as Hd.
    { intros A next. unfold dispatch. fold prefix. rewrite Hp.
      destruct value; [done|reflexivity]. }
    split; [exact Hd|].
    split; [unfold pipeline; apply log_requests_with_call_next, Hd|].
    split; [reflexivity|]. split; [apply rstrip_removed|].
    split; [|by repeat split].
    destruct (endswith stripped (py "/")) eqn:He; [exfalso|reflexivity].
    apply endswith_spec in He as [t Ht].
    apply (rstrip_last value (py "/") t 47 Ht). left.
  - intros Hp.
    assert (forall (A : Type) (next : Request -> A), dispatch request next = next request)
      as Hd.
    { intros A next. unfold dispatch. fold prefix. by destruct Hp as [-> | ->]. }
    split; [exact Hd|]. unfold pipeline. apply log_requests_with_call_next, Hd.
Qed.

End ForwardedPrefix.

(* ===================================================================== *)
(** * The properties on concrete inputs *)
(* ===================================================================== *)

Section Instances.
Import FlowRouter AppFactory Traces Samples.



Lemma add_flow_route_registers_witness :
  dynamic_routers fresh_service !! run_path (endpoint summarize) = None
  /\ declare_route framework (run_path (endpoint summarize)) = inr tt
  /\ dynamic_routers service_with_summarize !! py "/run/summarize"
     = Some (flow_router summarize)
  /\ serves (app service_with_summarize) (py "/run/summarize") = true
  /\ answers framework (app service_with_summarize) (py "/run/summarize") = true
  /\ openapi_schema (app service_with_summarize) = None.
Proof.
  assert (dynamic_routers fresh_service !! run_path (endpoint summarize) = None) as Hfresh
    by apply lookup_empty.
  assert (declare_route framework (run_path (endpoint summarize)) = inr tt) as Hok
    by reflexivity.
  split; [exact Hfresh|]. split; [exact Hok|].
  destruct (add_flow_route_registers framework fresh_service summarize Hfresh Hok)
    as (_ & _ & Hlookup & _ & Hserves & Hanswers & Hschema).
  exact (conj Hlookup (conj Hserves (conj (Hanswers eq_refl) Hschema))).
Defined.

(** The spec has every flow inserted, attached and reachable.  Here the
    endpoint names a parameter twice: the call raises, and the route table,
    the routes of the application and the cached document are as before. *)
Lemma add_flow_route_refused_registers_nothing :
  dynamic_routers fresh_service !! py "/run/{a}{a}" = None
  /\ result_of (add_flow_route framework twice fresh_service)
     = inl (PyException (py "Duplicated param name a at path /run/{a}{a}"))
  /\ dynamic_routers (state_of (add_flow_route framework twice fresh_service))
       !! py "/run/{a}{a}" = None
  /\ app_routes (app (state_of (add_flow_route framework twice fresh_service))) = []
  /\ openapi_schema (app (state_of (add_flow_route framework twice fresh_service)))
     = Some (JObj []).
Proof. repeat split; by vm_compute. Qed.


Lemma remove_then_add_reinserts_witness :
  declare_route framework (py "/run/summarize") = inr tt
  /\ logs_of (add_flow_route framework summarize_v2
                (state_of (remove_flow_route (py "summarize") service_with_summarize)))
     = [log INFO (CHECK_MARK ++ py " Dynamically added route: POST /run/summarize")]
  /\ entries_at (py "/run/summarize")
       (dynamic_routers
          (state_of (add_flow_route framework summarize_v2
                       (state_of (remove_flow_route (py "summarize")
                                    service_with_summarize)))))
     = [(py "/run/summarize", flow_router summarize_v2)].
Proof.
  assert (declare_route framework (py "/run/summarize") = inr tt) as Hok by reflexivity.
  split; [exact Hok|].
  destruct (remove_then_add_reinserts framework service_with_summarize summarize_v2)
    as (_ & Hadd & _).
  destruct (Hadd Hok) as (Hout & _ & Hentries & _).
  split; [|exact Hentries].
  change (endpoint summarize_v2) with (py "summarize") in Hout. by rewrite Hout.
Defined.

(** The spec has the flow inserted again after its removal.  Here the
    endpoint names a parameter twice: after the removal the call raises and
    the route table has no entry under the path. *)
Lemma remove_then_add_refused :
  result_of (add_flow_route framework twice
               (state_of (remove_flow_route (endpoint twice) fresh_service)))
  = inl (PyException (py "Duplicated param name a at path /run/{a}{a}"))
  /\ entries_at (py "/run/{a}{a}")
       (dynamic_routers
          (state_of (add_flow_route framework twice
                       (state_of (remove_flow_route (endpoint twice) fresh_service))))) = [].
Proof. split; by vm_compute. Qed.

Lemma execute_flow_endpoint_envelope_witness :
  snd (execute_flow_endpoint engine_ok summarize (JObj []))
  = inr (JObj [ (py "success", JBool true);
                (py "result", JObj [ (py "text", JStr (py "done")) ]);
                (py "session_id", JStr (py "s-1"));
                (py "execution_time", JNum 3) ])
  /\ snd (execute_flow_endpoint engine_failed summarize (JObj []))
     = inr (JObj [ (py "success", JBool false); (py "error", JStr (py "missing input")) ])
  /\ snd (execute_flow_endpoint engine_raises summarize (JObj []))
     = inr (JObj [ (py "success", JBool false);
                   (py "error", JStr (py "connection refused")) ]).
Proof.
  split; [|split].
  - destruct (execute_flow_endpoint_envelope engine_ok summarize (JObj []))
      as (Hok & _); [discriminate|].
    by rewrite (Hok _ eq_refl eq_refl).
  - destruct (execute_flow_endpoint_envelope engine_failed summarize (JObj []))
      as (_ & Hfailed & _); [discriminate|].
    by rewrite (Hfailed _ eq_refl eq_refl).
  - destruct (execute_flow_endpoint_envelope engine_raises summarize (JObj []))
      as (_ & _ & Hraised & _); [discriminate|].
    by rewrite (Hraised _ eq_refl).
Defined.

(** The spec has every raised exception turned into an envelope.  Here
    the call of the engine is cancelled: the handler returns no envelope,
    the exception leaves it. *)
Lemma execute_flow_endpoint_cancelled_propagates :
  execute_flow_endpoint engine_cancelled summarize (JObj [])
  = ([], inl (PyBaseException []))
  /\ ~ (exists envelope,
          snd (execute_flow_endpoint engine_cancelled summarize (JObj [])) = inr envelope).
Proof. split; [reflexivity|]. intros [envelope Henv]. discriminate. Qed.

Lemma log_requests_suppresses_rooted_get_404_witness :
  method get_run_summarize = py "GET"
  /\ call_next world_404 get_run_summarize = inr {| status_code := 404 |}
  /\ log_requests world_404 get_run_summarize
     = ([EvCallNext get_run_summarize], inr {| status_code := 404 |})
  /\ records (fst (log_requests world_404 get_run_summarize)) = [].
Proof.
  split; [reflexivity|]. split; [reflexivity|].
  apply (log_requests_suppresses_rooted_get_404 world_404 get_run_summarize
           {| status_code := 404 |}); reflexivity.
Defined.


Lemma log_requests_empty_post_body_witness :
  request_body world_empty_body = inr []
  /\ log_request_body world_empty_body post_chat = ([EvBodyRead], inr tt)
  /\ log_requests (with_scrub_text scrub_three world_empty_body) post_chat
     = log_requests world_empty_body post_chat.
Proof.
  split; [reflexivity|].
  destruct (log_requests_empty_post_body world_empty_body post_chat eq_refl eq_refl)
    as (Hbody & _ & _ & Hscrub).
  exact (conj Hbody (Hscrub scrub_three)).
Defined.

Lemma log_requests_logging_failures_caught_witness :
  body_stage_fails world_faults (py "client disconnected")
  /\ records (fst (log_request_body world_faults post_chat))
     = [ {| log_level := WARNING;
            log_msg := WARNING_SIGN ++ py " Could not read request body: client disconnected";
            log_exc_info := false |} ]
  /\ snd (log_requests world_faults post_chat) = inr {| status_code := 200 |}
  /\ url_path_fault world_url_path_fault = Some (PyException (py "boom"))
  /\ scanner_filter world_url_path_fault get_health {| status_code := 200 |}
     = ([], inr false).
Proof.
  assert (body_stage_fails world_faults (py "client disconnected")) as Hfail
    by (left; reflexivity).
  split; [exact Hfail|].
  destruct (log_requests_logging_failures_caught world_faults post_chat
              (py "client disconnected") []) as [Hbody _].
  destruct (Hbody eq_refl Hfail) as (Hrec & _ & _ & Hret).
  split; [exact Hrec|]. split; [exact (Hret _ eq_refl eq_refl)|].
  split; [reflexivity|].
  destruct (log_requests_logging_failures_caught world_url_path_fault get_health
              [] (py "boom")) as [_ Hfilter].
  exact (Hfilter eq_refl _).
Defined.

Lemma forwarded_prefix_rewrite_witness :
  headers_get (py "x-forwarded-prefix") (headers (proxied "/coe/")) = Some (py "/coe/")
  /\ dispatch (proxied "/coe/") root_path = py "/coe"
  /\ pipeline cors_through world_200 (proxied "/coe/")
     = log_requests
         (with_call_next
            (fun _ => call_next world_200 (set_root_path (proxied "/coe/") (py "/coe")))
            world_200)
         (proxied "/coe/")
  /\ headers_get (py "x-forwarded-prefix") (headers get_health) = None
  /\ dispatch get_health root_path = root_path get_health.
Proof.
  split; [reflexivity|].
  destruct (forwarded_prefix_rewrite cors_through world_200 (proxied "/coe/"))
    as (_ & Hset & _).
  destruct (Hset (py "/coe/") eq_refl) as (Hd & Hpipe & _); [discriminate|].
  split; [by rewrite Hd|]. split; [exact Hpipe|]. split; [reflexivity|].
  destruct (forwarded_prefix_rewrite cors_through world_200 get_health) as (_ & _ & Hkeep).
  destruct Hkeep as [Hd' _]; [by left|]. by rewrite Hd'.
Defined.

(** The spec has a failure of the filter logged as a warning, and the
    response returned.  Here the path of the request cannot be read: the
    block of the filter catches the exception and logs nothing, the access
    log reads the path again, outside any [try], and [log_requests] ends
    with the exception: no warning, no access log, no response. *)
Lemma log_requests_url_path_fault_leaves_no_warning :
  url_path_fault world_url_path_fault = Some (PyException (py "boom"))
  /\ scanner_filter world_url_path_fault get_health {| status_code := 200 |}
     = ([], inr false)
  /\ log_requests world_url_path_fault get_health
     = ([EvCallNext get_health], inl (PyException (py "boom")))
  /\ ~ (exists r, r ∈ records (fst (log_requests world_url_path_fault get_health))
                  /\ log_level r = WARNING).
Proof.
  split; [reflexivity|]. split; [reflexivity|]. split; [reflexivity|].
  intros (r & Hin & _). by apply elem_of_nil in Hin.
Qed.

(** The spec has the first stage of the pipeline replace the root path of
    every request that carries the header.  Here [log_requests] is the
    first stage and passes on the request with the root path it came with;
    and a header with an empty value leaves the root path ["/api"] where
    the stripped value is the empty one. *)
Lemma forwarded_prefix_not_first_and_empty_value :
  head (_add_middleware []) = Some log_requests_middleware
  /\ dispatched (fst (pipeline cors_through world_200 (proxied "/coe/")))
     = [proxied "/coe/"]
  /\ root_path (proxied "/coe/") = py "/api"
  /\ headers_get (py "x-forwarded-prefix") (headers (proxied "")) = Some []
  /\ rstrip [] (py "/") = []
  /\ dispatch (proxied "") root_path = py "/api"
  /\ dispatch (proxied "") root_path <> rstrip [] (py "/").
Proof. repeat split; try reflexivity. discriminate. Qed.

(** The three requests of the spec's test of the filter.  The first and
    the third behave as the spec says; the second is [get_run_summarize]
    above, which is suppressed as well. *)
Example get_favicon_404_is_suppressed :
  records (fst (log_requests world_404 get_favicon)) = [].
Proof. reflexivity. Qed.

Example get_root_200_is_logged :
  records (fst (log_requests world_200 get_root))
  = [ log INFO (GLOBE ++ py " GET / - Client: 203.0.113.7");
      log INFO (CHECK_MARK ++ py " GET / - Status: 200 - Time: 0.002s") ].
Proof. reflexivity. Qed.

(** A masked text of 501 characters is cut after 500 and marked. *)
Example long_body_is_truncated :
  records (fst (log_request_body world_long post_chat))
  = [ log INFO (MEMO ++ py " POST /v1/chat/completions body: "
                ++ repeat 97 500 ++ py "...") ].
Proof. by vm_compute. Qed.

End Instances.

(* ===================================================================== *)
(** * The route registry over sequences of calls *)
(* ===================================================================== *)

Section RegistryRunsFacts.
Import FlowRouter RegistryRuns.

Variable fw : Framework.
Implicit Types (s : FlowRouterService) (flow : FlowRead) (path : pystr)
  (c : call) (cs : list call).

Lemma add_flow_route_state s flow :
  state_of (add_flow_route fw flow s)
  = match dynamic_routers s !! run_path (endpoint flow) with
    | Some _ => s
    | None =>
        match declare_route fw (run_path (endpoint flow)) with
        | inl _ => s
        | inr _ => inserted flow s
        end
    end.
Proof.
  destruct (dynamic_routers s !! run_path (endpoint flow)) as [r|] eqn:Hl.
  - by rewrite add_flow_route_present by (rewrite Hl; eauto).
  - destruct (declare_route fw (run_path (endpoint flow))) as [e|[]] eqn:Hd.
    + by rewrite (add_flow_route_declaration_refused fw s flow e Hl Hd).
    + by rewrite (add_flow_route_absent fw s flow Hl Hd).
Qed.

Lemma remove_flow_route_state s flow_endpoint :
  state_of (remove_flow_route flow_endpoint s)
  = match dynamic_routers s !! run_path flow_endpoint with
    | Some _ => deactivated flow_endpoint s
    | None => s
    end.
Proof.
  destruct (dynamic_routers s !! run_path flow_endpoint) as [r|] eqn:Hl.
  - by rewrite remove_flow_route_present by (rewrite Hl; eauto).
  - by rewrite remove_flow_route_absent by exact Hl.
Qed.

Lemma run_call_remove_state s flow_endpoint :
  state_of (run_call fw (RemoveFlowRoute flow_endpoint) s)
  = state_of (remove_flow_route flow_endpoint s).
Proof.
  unfold run_call, mbind, svc_bind, state_of.
  by destruct (remove_flow_route flow_endpoint s) as [[[] s'] l].
Qed.

Lemma run_path_inj a b : run_path a = run_path b -> a = b.
Proof. unfold run_path. apply app_inv_head. Qed.

Lemma registry_ok_init a : registry_ok (init a).
Proof. intros path router Hl. unfold init in Hl. simpl in Hl. by rewrite lookup_empty in Hl. Qed.

Lemma registry_ok_call c s : registry_ok s -> registry_ok (state_of (run_call fw c s)).
Proof.
  intros Hok. destruct c as [flow|flow_endpoint].
  - cbn [run_call]. rewrite add_flow_route_state.
    destruct (dynamic_routers s !! run_path (endpoint flow)) eqn:Hl; [exact Hok|].
    destruct (declare_route fw (run_path (endpoint flow))); [exact Hok|].
    intros path router. unfold inserted. cbn [dynamic_routers app app_routes].
    destruct (decide (path = run_path (endpoint flow))) as [->|Hne].
    + rewrite lookup_insert_eq. intros [= <-]. exists flow.
      split; [reflexivity|]. split; [reflexivity|].
      intros r Hr. apply elem_of_app. by right.
    + rewrite lookup_insert_ne by done. intros Hp.
      destruct (Hok path router Hp) as (flow' & -> & -> & Hin).
      exists flow'. split; [reflexivity|]. split; [reflexivity|].
      intros r Hr. apply elem_of_app. left. by apply Hin.
  - rewrite run_call_remove_state, remove_flow_route_state.
    destruct (dynamic_routers s !! run_path flow_endpoint) eqn:Hl; [|exact Hok].
    intros path router. unfold deactivated. cbn [dynamic_routers app app_routes].
    intros Hp. apply lookup_delete_Some in Hp as [_ Hp]. by apply Hok.
Qed.

Lemma registry_ok_run_calls cs s : registry_ok s -> registry_ok (run_calls fw cs s).
Proof.
  revert s. induction cs as [|c cs IH]; intros s Hok; [exact Hok|].
  simpl. apply IH. by apply registry_ok_call.
Qed.

Lemma app_routes_call c s :
  exists added, app_routes (app (state_of (run_call fw c s))) = app_routes (app s) ++ added.
Proof.
  destruct c as [flow|flow_endpoint].
  - cbn [run_call]. rewrite add_flow_route_state.
    destruct (dynamic_routers s !! run_path (endpoint flow)).
    + exists []. by rewrite app_nil_r.
    + destruct (declare_route fw (run_path (endpoint flow))); [|by eexists].
      exists []. by rewrite app_nil_r.
  - rewrite run_call_remove_state, remove_flow_route_state.
    destruct (dynamic_routers s !! run_path flow_endpoint); exists []; by rewrite app_nil_r.
Qed.

Lemma serves_app_routes (a a' : FastAPI) path :
  app_routes a `prefix_of` app_routes a' -> serves a path = true -> serves a' path = true.
Proof.
  intros [k Hk]. unfold serves, any. rewrite Hk, existsb_app. by intros ->.
Qed.

Lemma schema_call c s :
  state_of (run_call fw c s) = s \/ openapi_schema (app (state_of (run_call fw c s))) = None.
Proof.
  destruct c as [flow|flow_endpoint].
  - cbn [run_call]. rewrite add_flow_route_state.
    destruct (dynamic_routers s !! run_path (endpoint flow)); [by left|].
    destruct (declare_route fw (run_path (endpoint flow))); [by left|by right].
  - rewrite run_call_remove_state, remove_flow_route_state.
    destruct (dynamic_routers s !! run_path flow_endpoint); [by right|by left].
Qed.

(** X1.  In every state that calls of [add_flow_route] and
    [remove_flow_route] reach from a new service object, each entry of
    [dynamic_routers] is the router of a flow under the path ["/run/" +
    endpoint] of that flow, and the application serves that path. *)
Theorem registered_paths_are_served (a : FastAPI) cs :
  let s := run_calls fw cs (init a) in
  forall path router,
    dynamic_routers s !! path = Some router ->
    (exists flow, path = py "/run/" ++ endpoint flow /\ router = flow_router flow)
    /\ serves (app s) path = true.
Proof.
  intros s path router Hl.
  destruct (registry_ok_run_calls cs (init a) (registry_ok_init a) path router Hl)
    as (flow & -> & -> & Hin).
  split; [by exists flow|].
  eapply serves_app.
  - apply Hin. unfold flow_router. cbn [router_routes]. left.
  - reflexivity.
  - cbn [route_methods]. left.
Qed.

(** X2.  No sequence of calls detaches a route: the routes the
    application had are still there, in front and in the same order, and
    every path that was served is still served. *)
Theorem run_calls_never_detach cs s :
  app_routes (app s) `prefix_of` app_routes (app (run_calls fw cs s))
  /\ forall path, serves (app s) path = true -> serves (app (run_calls fw cs s)) path = true.
Proof.
  assert (app_routes (app s) `prefix_of` app_routes (app (run_calls fw cs s))) as Hpre.
  { revert s. induction cs as [|c cs IH]; intros s; [done|]. simpl.
    destruct (app_routes_call c s) as [added Hadd].
    etrans; [|apply IH]. rewrite Hadd. by apply prefix_app_r. }
  split; [exact Hpre|]. intros path. by apply serves_app_routes.
Qed.

(** X3.  Where the framework accepts the declaration of the route:
    registering a flow on a free path, removing it and registering another
    flow under the same endpoint leaves two routes declared on that path;
    the route bound to the first flow stays attached, in front of the route
    bound to the second, while the route table holds the second router
    only. *)
Theorem readd_keeps_old_route s flow flow' :
  endpoint flow' = endpoint flow ->
  dynamic_routers s !! run_path (endpoint flow) = None ->
  declare_route fw (run_path (endpoint flow)) = inr tt ->
  let path := run_path (endpoint flow) in
  let s' := run_calls fw [AddFlowRoute flow; RemoveFlowRoute (endpoint flow);
                          AddFlowRoute flow'] s in
  app_routes (app s')
  = app_routes (app s) ++ router_routes (flow_router flow) ++ router_routes (flow_router flow')
  /\ routes_at path (app s')
     = routes_at path (app s) ++ router_routes (flow_router flow)
       ++ router_routes (flow_router flow')
  /\ dynamic_routers s' = <[path := flow_router flow']> (dynamic_routers s).
Proof.
  intros He Hout Hok path s'.
  assert (s' = inserted flow' (deactivated (endpoint flow) (inserted flow s))) as ->.
  { subst s'. cbn [run_calls]. rewrite run_call_remove_state. cbn [run_call].
    rewrite (add_flow_route_state s flow), Hout, Hok.
    rewrite (remove_flow_route_state (inserted flow s)).
    assert (dynamic_routers (inserted flow s) !! run_path (endpoint flow)
            = Some (flow_router flow)) as -> by apply lookup_insert_eq.
    rewrite (add_flow_route_state _ flow'), He, Hok.
    assert (dynamic_routers (deactivated (endpoint flow) (inserted flow s))
              !! run_path (endpoint flow) = None) as -> by apply lookup_delete_eq.
    reflexivity. }
  unfold routes_at, inserted, deactivated.
  cbn [app app_routes dynamic_routers]. rewrite He. fold path.
  split; [by rewrite <- app_assoc|]. split.
  - rewrite <- app_assoc, !filter_app. do 2 f_equal.
    + unfold flow_router. cbn [router_routes].
      rewrite filter_cons_True by reflexivity. reflexivity.
    + unfold flow_router. cbn [router_routes].
      rewrite filter_cons_True by (cbn; by rewrite He). reflexivity.
  - by rewrite insert_delete_eq, insert_insert_eq.
Qed.

End RegistryRunsFacts.

Section RegistryRunsMore.
Import FlowRouter RegistryRuns.

Variable fw : Framework.
Implicit Types (s : FlowRouterService) (flow : FlowRead) (path : pystr)
  (c : call) (cs : list call).

(** Calls of [add_flow_route] do not replace an entry. *)
Lemma add_calls_keep_entries (flows : list FlowRead) s path router :
  dynamic_routers s !! path = Some router ->
  dynamic_routers (run_calls fw (AddFlowRoute <$> flows) s) !! path = Some router.
Proof.
  revert s. induction flows as [|flow flows IH]; intros s Hl; [exact Hl|].
  cbn [fmap list_fmap run_calls run_call]. apply IH.
  rewrite add_flow_route_state.
  destruct (dynamic_routers s !! run_path (endpoint flow)) eqn:Hf; [exact Hl|].
  destruct (declare_route fw (run_path (endpoint flow))); [exact Hl|].
  unfold inserted. cbn [dynamic_routers].
  rewrite lookup_insert_ne; [exact Hl|]. intros <-. congruence.
Qed.

Lemma schema_stays_None cs s :
  openapi_schema (app s) = None -> openapi_schema (app (run_calls fw cs s)) = None.
Proof.
  revert s. induction cs as [|c cs IH]; intros s Hn; [exact Hn|].
  simpl. apply IH. destruct (schema_call fw c s) as [-> | Hs]; done.
Qed.

(** X4.  Registering flows whose endpoints are pairwise different and
    not yet registered, and whose declarations the framework accepts, adds
    one entry for each: the route table grows by the number of flows, and
    each path leads to the router of its flow. *)
Theorem add_distinct_flows (flows : list FlowRead) s :
  NoDup (endpoint <$> flows) ->
  (forall flow, flow ∈ flows ->
     dynamic_routers s !! run_path (endpoint flow) = None
     /\ declare_route fw (run_path (endpoint flow)) = inr tt) ->
  let s' := run_calls fw (AddFlowRoute <$> flows) s in
  size (dynamic_routers s') = (size (dynamic_routers s) + length flows)%nat
  /\ forall flow, flow ∈ flows ->
       dynamic_routers s' !! run_path (endpoint flow) = Some (flow_router flow).
Proof.
  revert s. induction flows as [|f flows IH]; intros s Hnd Hfresh s'.
  - subst s'. simpl. split; [lia|]. intros flow Hin. by apply elem_of_nil in Hin.
  - rewrite fmap_cons in Hnd. apply NoDup_cons in Hnd as [Hf Hnd].
    destruct (Hfresh f) as [Hout Hok]; [left|].
    assert (s' = run_calls fw (AddFlowRoute <$> flows) (inserted f s)) as ->.
    { subst s'. cbn [fmap list_fmap run_calls run_call].
      by rewrite add_flow_route_state, Hout, Hok. }
    destruct (IH (inserted f s) Hnd) as [Hsize Hall].
    { intros flow Hin. destruct (Hfresh flow) as [Hout' Hok']; [by right|].
      split; [|exact Hok']. unfold inserted. cbn [dynamic_routers].
      rewrite lookup_insert_ne; [exact Hout'|].
      intros Heq%run_path_inj. apply Hf. rewrite Heq. by apply list_elem_of_fmap_2. }
    split.
    + rewrite Hsize. unfold inserted. cbn [dynamic_routers length].
      rewrite map_size_insert_None by exact Hout. lia.
    + intros flow [->|Hin]%elem_of_cons; [|by apply Hall].
      apply add_calls_keep_entries. unfold inserted. cbn [dynamic_routers].
      apply lookup_insert_eq.
Qed.

(** X5.  The cached OpenAPI document survives a sequence of calls only
    if the sequence changed nothing: either the service object is as it was
    or [openapi_schema] is [None]. *)
Theorem run_calls_invalidate_schema cs s :
  run_calls fw cs s = s \/ openapi_schema (app (run_calls fw cs s)) = None.
Proof.
  revert s. induction cs as [|c cs IH]; intros s; [by left|].
  simpl. destruct (schema_call fw c s) as [Hs | Hs].
  - rewrite Hs. apply IH.
  - right. by apply schema_stays_None.
Qed.

(** X6.  [add_flow_route] touches the entry and the declared routes of
    its own path only: the entry of every other path and the routes
    declared on every other path are as before, and a POST to another path
    is answered as before unless the framework matches the new route
    against that path. *)
Theorem add_flow_route_other_paths s flow path :
  path <> run_path (endpoint flow) ->
  let s' := state_of (add_flow_route fw flow s) in
  dynamic_routers s' !! path = dynamic_routers s !! path
  /\ routes_at path (app s') = routes_at path (app s)
  /\ (route_matches fw (run_path (endpoint flow)) path = false ->
      answers fw (app s') path = answers fw (app s) path).
Proof.
  intros Hne s'. subst s'. rewrite add_flow_route_state.
  destruct (dynamic_routers s !! run_path (endpoint flow)); [done|].
  destruct (declare_route fw (run_path (endpoint flow))); [done|].
  unfold inserted, routes_at, answers, any, flow_router.
  cbn [app app_routes dynamic_routers router_routes].
  split; [by apply lookup_insert_ne|]. split.
  - rewrite filter_app, filter_cons_False by (cbn [route_path]; congruence).
    by rewrite filter_nil, app_nil_r.
  - intros Hm. rewrite existsb_app. cbn [existsb route_path].
    rewrite Hm. cbn. by rewrite !orb_false_r.
Qed.

(** X7.  Where the framework accepts the declaration of the route:
    registering a flow on a free path and removing it again gives back the
    route table as it was, but not the application: the route is still
    attached, a POST to the path is still answered if the framework matches
    the route against the path it is declared on, and the cached document
    is gone. *)
Theorem add_then_remove s flow :
  dynamic_routers s !! run_path (endpoint flow) = None ->
  declare_route fw (run_path (endpoint flow)) = inr tt ->
  let s' := run_calls fw [AddFlowRoute flow; RemoveFlowRoute (endpoint flow)] s in
  dynamic_routers s' = dynamic_routers s
  /\ app_routes (app s') = app_routes (app s) ++ router_routes (flow_router flow)
  /\ (route_matches fw (run_path (endpoint flow)) (run_path (endpoint flow)) = true ->
      answers fw (app s') (run_path (endpoint flow)) = true)
  /\ openapi_schema (app s') = None.
Proof.
  intros Hout Hok s'.
  assert (s' = deactivated (endpoint flow) (inserted flow s)) as ->.
  { subst s'. cbn [run_calls]. rewrite run_call_remove_state. cbn [run_call].
    rewrite (add_flow_route_state fw s flow), Hout, Hok.
    rewrite (remove_flow_route_state (inserted flow s)).
    assert (dynamic_routers (inserted flow s) !! run_path (endpoint flow)
            = Some (flow_router flow)) as -> by apply lookup_insert_eq.
    reflexivity. }
  unfold deactivated, inserted. cbn [app app_routes dynamic_routers openapi_schema].
  split; [by apply delete_insert_id|]. split; [reflexivity|]. split; [|reflexivity].
  intros Hm. unfold answers, any, flow_router. cbn [app_routes router_routes].
  rewrite existsb_app. cbn [existsb route_path route_methods].
  rewrite Hm.
  rewrite bool_decide_eq_true_2 by (apply list_elem_of_singleton; reflexivity).
  cbn. by rewrite orb_true_r.
Qed.

End RegistryRunsMore.

(* ===================================================================== *)
(** * What [log_requests] does in every world *)
(* ===================================================================== *)

Section PipelineTraces.
Import AppFactory Traces.

Variable w : World.
Implicit Types (request : Request) (response : Response).

Ltac unfold_eff :=
  unfold perform, raise, logging_info, logging_warning, try_except_Exception,
    mbind, eff_bind, mret, eff_ret in *.

Ltac shape := cbn; split_and!; try done; try lia; eauto.

(** The body stage: it does not call the next stage; it ends normally or
    with an exception outside [Exception]; it reads the body once for a
    POST and not otherwise; it calls the scrubber at most once. *)
Lemma log_request_body_shape request :
  let out := log_request_body w request in
  dispatched (fst out) = []
  /\ (snd out = inr tt
      \/ exists m, snd out = inl (PyBaseException m) /\ method request = py "POST")
  /\ body_reads (fst out) = (if bool_decide (method request = py "POST") then 1 else 0)%nat
  /\ (length (scrubbed (fst out)) <= body_reads (fst out))%nat.
Proof.
  cbv zeta. unfold log_request_body, read_url_path. case_bool_decide as Hm; [|cbn; auto].
  unfold_eff.
  destruct (request_body w) as [[e|m]|[|b body]]; [shape|shape|shape|].
  rewrite (bool_decide_eq_true_2 (b :: body <> [])) by done.
  destruct (scrub_text w (decode w (b :: body))) as [[e|m]|[masked [|hit hits]]];
    destruct (url_path_fault w) as [[e'|m']|]; shape.
Qed.

(** From the call of the next stage on: that call is made once, with the
    request as it came; neither the body nor the scrubber is touched. *)
Lemma respond_shape request :
  let out := respond w request in
  dispatched (fst out) = [request]
  /\ body_reads (fst out) = 0%nat
  /\ scrubbed (fst out) = []
  /\ forall response, snd out = inr response -> call_next w request = inr response.
Proof.
  cbv zeta. unfold respond, scanner_filter, access_log, read_url_path. unfold_eff.
  destruct (call_next w request) as [e|response]; [cbn; repeat split; discriminate|].
  destruct (url_path_fault w) as [[e|m]|]; cbn.
  - repeat split. discriminate.
  - repeat split. discriminate.
  - destruct (is_get_404 request response && is_scanner_like (or_root (url_path request)));
      cbn; repeat split; congruence.
Qed.

Lemma log_requests_bind request :
  log_requests w request
  = match log_request_body w request with
    | (t, inl e) => (t, inl e)
    | (t, inr _) => (t ++ fst (respond w request), snd (respond w request))
    end.
Proof.
  unfold log_requests, mbind, eff_bind.
  destruct (log_request_body w request) as [t [e|[]]]; [reflexivity|].
  by destruct (respond w request).
Qed.

Lemma dispatched_app t1 t2 : dispatched (t1 ++ t2) = dispatched t1 ++ dispatched t2.
Proof. apply omap_app. Qed.

Lemma scrubbed_app t1 t2 : scrubbed (t1 ++ t2) = scrubbed t1 ++ scrubbed t2.
Proof. apply omap_app. Qed.

Lemma body_reads_app t1 t2 : body_reads (t1 ++ t2) = (body_reads t1 + body_reads t2)%nat.
Proof. unfold body_reads. by rewrite omap_app, length_app. Qed.

Lemma records_app t1 t2 : records (t1 ++ t2) = records t1 ++ records t2.
Proof. apply omap_app. Qed.

(** X8.  [log_requests] calls the next stage at most once, with the
    request as it came, and returns the response of that call unchanged:
    whenever it returns a response, the next stage was called exactly once
    and returned this response.  The call is left out only when the body
    stage ends with an exception outside [Exception]. *)
Theorem log_requests_dispatches_once request :
  let out := log_requests w request in
  (dispatched (fst out) = [request]
   \/ dispatched (fst out) = [] /\ exists m, snd out = inl (PyBaseException m))
  /\ forall response,
       snd out = inr response ->
       call_next w request = inr response /\ dispatched (fst out) = [request].
Proof.
  cbv zeta. rewrite log_requests_bind.
  destruct (log_request_body_shape request) as (Hd & Hs & _).
  destruct (respond_shape request) as (Hrd & _ & _ & Hret).
  destruct (log_request_body w request) as [t [e|[]]]; cbn [fst snd] in *.
  - destruct Hs as [?|(m & [= ->] & _)]; [discriminate|].
    split; [right; eauto|]. discriminate.
  - rewrite dispatched_app, Hd, Hrd. split; [by left|].
    intros response Hresp. split; [by apply Hret|reflexivity].
Qed.

(** X9.  When the next stage raises, [log_requests] raises the same
    exception and writes no access-log record: the log holds what the body
    stage wrote and nothing else. *)
Theorem log_requests_downstream_failure request e :
  call_next w request = inl e ->
  snd (log_request_body w request) = inr tt ->
  snd (log_requests w request) = inl e
  /\ records (fst (log_requests w request)) = records (fst (log_request_body w request)).
Proof.
  intros Hc Hb. rewrite log_requests_bind.
  destruct (log_request_body w request) as [t [e'|[]]]; cbn [fst snd] in *; [discriminate|].
  unfold respond. rewrite Hc. unfold_eff. cbn [fst snd].
  split; [reflexivity|]. by rewrite records_app, app_nil_r.
Qed.

(** X10.  The body of the request is read once when the method is POST
    and never otherwise, and the scrubber is called at most once, and only
    after the body was read. *)
Theorem log_requests_reads_post_bodies_only request :
  let t := fst (log_requests w request) in
  body_reads t = (if bool_decide (method request = py "POST") then 1 else 0)%nat
  /\ (length (scrubbed t) <= body_reads t)%nat.
Proof.
  cbv zeta. rewrite log_requests_bind.
  destruct (log_request_body_shape request) as (_ & _ & Hr & Hsc).
  destruct (respond_shape request) as (_ & Hrr & Hrs & _).
  destruct (log_request_body w request) as [t [e|[]]]; cbn [fst snd] in *; [done|].
  rewrite body_reads_app, scrubbed_app, Hrr, Hrs, app_nil_r, Nat.add_0_r. done.
Qed.

(** X11.  Where [request.url.path] can be read, a response is never
    kept out of the access log unless the request is a GET and the status
    is 404: for every other request that the next stage answers, both
    records are written and the response is returned. *)
Theorem respond_logs_unless_get_404 request response :
  call_next w request = inr response ->
  is_get_404 request response = false ->
  url_path_fault w = None ->
  respond w request = (EvCallNext request :: access_lines w request response, inr response)
  /\ length (records (fst (respond w request))) = 2%nat.
Proof.
  intros Hc H404 Hf.
  assert (respond w request
          = (EvCallNext request :: access_lines w request response, inr response)) as Heq.
  { rewrite (respond_suppression_exact w request response Hf Hc). by rewrite H404. }
  split; [exact Heq|]. rewrite Heq.
  unfold access_lines, access_log, read_url_path. by rewrite Hf.
Qed.


End PipelineTraces.

(* ===================================================================== *)
(** * The scanner filter and the summary of the matches *)
(* ===================================================================== *)

Section FilterFacts.
Import AppFactory.

Lemma skip_prefixes_rooted :
  Forall (fun p => startswith p (py "/") = true) skip_prefixes.
Proof. unfold skip_prefixes. repeat constructor. Qed.

(** X12.  The filter takes a path for scanner traffic exactly when the
    path begins with a slash or ends with one of [skip_suffixes]: the
    entries of [skip_prefixes] after ["/"] and the test for the root path
    decide nothing. *)
Theorem is_scanner_like_iff (path : pystr) :
  is_scanner_like path = true
  <-> startswith path (py "/") = true
      \/ exists suffix, suffix ∈ skip_suffixes /\ endswith path suffix = true.
Proof.
  unfold is_scanner_like, any. rewrite !orb_true_iff, bool_decide_eq_true. split.
  - intros [[-> | Hp] | Hs].
    + by left.
    + left. apply existsb_exists in Hp as (p & Hin & Hp).
      apply list_elem_of_In in Hin.
      pose proof (proj1 (Forall_forall _ _) skip_prefixes_rooted p Hin) as Hroot.
      apply startswith_spec in Hp as [t ->].
      apply startswith_spec in Hroot as [r ->].
      apply startswith_spec. exists (r ++ t). by rewrite <- app_assoc.
    + right. apply existsb_exists in Hs as (s & Hin & Hs).
      exists s. split; [by apply list_elem_of_In|exact Hs].
  - intros [Hroot | (s & Hin & Hs)].
    + left. right. apply existsb_exists. exists (py "/").
      split; [left; reflexivity|exact Hroot].
    + right. apply existsb_exists. exists s. split; [by apply list_elem_of_In|exact Hs].
Qed.

(** X13.  The summary of the matches depends only on which categories
    occur: two lists of matches with the same categories, in whatever order
    and however often, give the same text. *)
Theorem masked_types_by_categories (hits hits' : list PiiHit) :
  (forall c, c ∈ hit_type <$> hits <-> c ∈ hit_type <$> hits') ->
  masked_types hits = masked_types hits'.
Proof.
  intros Hsame. unfold masked_types, type_set. do 2 f_equal.
  apply set_eq. intros c. by rewrite !elem_of_list_to_set.
Qed.

End FilterFacts.

(* ===================================================================== *)
(** * More on [ForwardedPrefixMiddleware] *)
(* ===================================================================== *)

Section ForwardedPrefixMore.
Import AppFactory.

Context {A : Type}.
Variable call_next : Request -> A.

(** X14.  A header value that is not empty gives the empty root path
    exactly when it consists of slashes only: the value ["/"] removes the
    root path that the request had. *)
Theorem forwarded_prefix_only_slashes (request : Request) (value : pystr) :
  headers_get (py "x-forwarded-prefix") (headers request) = Some value ->
  value <> [] ->
  dispatch request root_path = [] <-> Forall (fun c => c = 47) value.
Proof.
  intros Hp Hne. unfold dispatch. rewrite Hp.
  destruct value as [|c value]; [done|]. cbn [truthy default set_root_path root_path].
  rewrite rstrip_nil_iff. apply Forall_iff. intros x.
  change (py "/") with [47]. by rewrite list_elem_of_singleton.
Qed.

(** X15.  Running the middleware twice is the same as running it once. *)
Theorem dispatch_twice (request : Request) :
  dispatch request (fun r => dispatch r call_next) = dispatch request call_next.
Proof.
  unfold dispatch.
  destruct (truthy (headers_get (py "x-forwarded-prefix") (headers request))) eqn:Ht.
  - cbn [headers set_root_path]. by rewrite Ht.
  - by rewrite Ht.
Qed.

End ForwardedPrefixMore.

(* ===================================================================== *)
(** * The start-up of the application *)
(* ===================================================================== *)

Section BootstrapFacts.
Import Bootstrap.

Context {Agent Tools ModelId : Type}.
Variable b : Boot Agent Tools ModelId.
Implicit Types (self : AppFactoryObj Agent Tools ModelId) (st : AppSettings).

Ltac unfold_run :=
  unfold outside_call, done_call, boot_raise, boot_info, boot_error,
    mbind, run_bind, mret, run_ret in *.

Lemma create_app_returns_inv self self' st :
  snd (create_app b self) = inr (self', st) ->
  init_database b = inr true
  /\ st = app_settings b
  /\ exists a t m a' t' m',
       build_agent_graph b = inr (a, t, m)
       /\ build_aider_agent_graph b = inr (a', t', m')
       /\ self' = built a a' t t' m m'
       /\ new_FastAPI b (app_settings b) = inr tt
       /\ add_middleware_ends b = inr tt
       /\ register_routers_ends b = inr tt
       /\ set_agent_info b (Some a) (Some m) = inr tt.
Proof.
  unfold create_app, initialize_database, build_agents. unfold_run.
  destruct (init_database b) as [e|[|]]; cbn; try discriminate.
  destruct (build_agent_graph b) as [e|[[a t] m]]; cbn; try discriminate.
  destruct (build_aider_agent_graph b) as [e|[[a' t'] m']]; cbn; try discriminate.
  destruct (new_FastAPI b (app_settings b)) as [e|[]]; cbn; try discriminate.
  destruct (add_middleware_ends b) as [e|[]]; cbn; try discriminate.
  destruct (register_routers_ends b) as [e|[]]; cbn; try discriminate.
  destruct (set_agent_info b (Some a) (Some m)) as [e|[]] eqn:Hset; cbn; try discriminate.
  intros [= <- <-]. split; [reflexivity|]. split; [reflexivity|].
  exists a, t, m, a', t', m'. by repeat split.
Qed.

(** The trace and the outcome of [create_app] once the database has
    initialised and both agent graphs are built. *)
Lemma create_app_built self a t m a' t' m' :
  init_database b = inr true ->
  build_agent_graph b = inr (a, t, m) ->
  build_aider_agent_graph b = inr (a', t', m') ->
  create_app b self
  = let '(t1, r1) :=
      (outside_call (CallFastAPI (app_settings b)) (new_FastAPI b (app_settings b)) ;;
       outside_call CallAddMiddleware (add_middleware_ends b) ;;
       outside_call CallRegisterRouters (register_routers_ends b) ;;
       outside_call (CallSetAgentInfo (Some a) (Some m))
         (set_agent_info b (Some a) (Some m)) ;;
       mret (built a a' t t' m m', app_settings b)
       : Run Agent ModelId (AppFactoryObj Agent Tools ModelId * AppSettings)) in
    (boot_prefix
       ++ [ BootLog (log INFO (CHECK_MARK ++ py " Database initialized successfully"));
            BootLog (log INFO (ROBOT ++ py " Building agent graphs..."));
            CallBuildAgentGraph; CallBuildAiderAgentGraph;
            BootLog (log INFO (CHECK_MARK ++ py " Agent graphs built successfully")) ]
       ++ t1, r1).
Proof.
  intros Hdb Ha Ha'. unfold create_app, initialize_database, build_agents. unfold_run.
  rewrite Hdb, Ha, Ha'. cbn.
  destruct (new_FastAPI b (app_settings b)) as [e|[]]; cbn; [reflexivity|].
  destruct (add_middleware_ends b) as [e|[]]; cbn; [reflexivity|].
  destruct (register_routers_ends b) as [e|[]]; cbn; [reflexivity|].
  destruct (set_agent_info b (Some a) (Some m)) as [e|[]]; cbn; reflexivity.
Qed.


(** X17.  [create_app] returns an application only if the database
    initialises, both agent graphs are built and the calls that set up the
    application return.  The factory object then holds both agents with
    their tools and model ids, whatever it held before, the application has
    the settings computed from the environment, and [set_agent_info] is the
    last call, made with the main agent and its model id. *)
Theorem create_app_returns_only_if self self' st :
  snd (create_app b self) = inr (self', st) ->
  init_database b = inr true
  /\ st = app_settings b
  /\ exists a t m a' t' m',
       build_agent_graph b = inr (a, t, m)
       /\ build_aider_agent_graph b = inr (a', t', m')
       /\ self' = built a a' t t' m m'
       /\ new_FastAPI b (app_settings b) = inr tt
       /\ add_middleware_ends b = inr tt
       /\ register_routers_ends b = inr tt
       /\ set_agent_info b (Some a) (Some m) = inr tt
       /\ last (fst (create_app b self)) = Some (CallSetAgentInfo (Some a) (Some m)).
Proof.
  intros Hret.
  destruct (create_app_returns_inv self self' st Hret)
    as (Hdb & Hst & a & t & m & a' & t' & m' & Ha & Ha' & Hself & Hf & Hm & Hr & Hs).
  split; [exact Hdb|]. split; [exact Hst|].
  exists a, t, m, a', t', m'. repeat split; try done.
  rewrite (create_app_built self a t m a' t' m' Hdb Ha Ha').
  unfold_run. rewrite Hf, Hm, Hr, Hs. reflexivity.
Qed.

(** X21.  When the database has initialised, both agent graphs are built
    and the application is created, an exception of [_register_routers]
    ends [create_app]: it is passed on, [_register_routers] is the last
    call made, and [set_agent_info] is not called. *)
Theorem create_app_setup_failure self a t m a' t' m' e :
  init_database b = inr true ->
  build_agent_graph b = inr (a, t, m) ->
  build_aider_agent_graph b = inr (a', t', m') ->
  new_FastAPI b (app_settings b) = inr tt ->
  add_middleware_ends b = inr tt ->
  register_routers_ends b = inl e ->
  snd (create_app b self) = inl e
  /\ last (fst (create_app b self)) = Some CallRegisterRouters
  /\ forall ag model_id, CallSetAgentInfo ag model_id ∉ fst (create_app b self).
Proof.
  intros Hdb Ha Ha' Hf Hm Hr.
  rewrite (create_app_built self a t m a' t' m' Hdb Ha Ha').
  unfold_run. rewrite Hf, Hm, Hr. cbn.
  split; [reflexivity|]. split; [reflexivity|].
  intros ag model_id Hin. unfold boot_prefix in Hin.
  repeat (apply elem_of_cons in Hin as [Hin | Hin]; [discriminate|]).
  by apply elem_of_nil in Hin.
Qed.

(** X18.  The three documentation URLs go together.  With a [lower]
    that is Python's on ASCII text and ASCII values in the environment, the
    application that [create_app] returns has [/docs], [/redoc] and
    [/openapi.json] when [ENABLE_DOCS] is one of 1, true, yes, on or
    [APP_ENV] is development or local, in any mix of upper and lower case;
    otherwise, and so when neither variable is set, it has none of them. *)
Theorem create_app_docs_urls self self' st :
  (forall s, is_ascii s -> lower b s = ascii_lower s) ->
  is_ascii (getenv b (py "ENABLE_DOCS") []) ->
  is_ascii (getenv b (py "APP_ENV") []) ->
  snd (create_app b self) = inr (self', st) ->
  let flag := ascii_lower (getenv b (py "ENABLE_DOCS") []) in
  let env := ascii_lower (getenv b (py "APP_ENV") []) in
  let on := flag ∈ [py "1"; py "true"; py "yes"; py "on"]
            \/ env ∈ [py "development"; py "local"] in
  (on -> docs_url st = Some (py "/docs") /\ redoc_url st = Some (py "/redoc")
         /\ openapi_url st = Some (py "/openapi.json"))
  /\ (~ on -> docs_url st = None /\ redoc_url st = None /\ openapi_url st = None).
Proof.
  intros Hlower Hflag Henv Hret flag env on.
  destruct (create_app_returns_inv self self' st Hret) as (_ & -> & _).
  assert (expose_docs b = true <-> on) as Hon.
  { unfold expose_docs, docs_flag, app_env.
    rewrite (Hlower _ Hflag), (Hlower _ Henv).
    by rewrite orb_true_iff, !bool_decide_eq_true. }
  unfold app_settings. cbn [docs_url redoc_url openapi_url].
  destruct (expose_docs b).
  - split; [done|]. intros Hoff. destruct Hoff. by apply Hon.
  - split; [|done]. intros Hyes. apply Hon in Hyes. discriminate.
Qed.

End BootstrapFacts.

(* ===================================================================== *)
(** * More on the handler of a dynamic route *)
(* ===================================================================== *)

Section HandlerLog.
Import FlowRouter.

Variable execute_flow : json -> json -> raised + ExecutionResult.

(** X19.  The handler writes a log record exactly when the engine
    raises an [Exception]: a failure that the engine reports in its result
    is answered but not logged.  An exception outside [Exception] passes
    through the handler, without a log record and without an answer. *)
Theorem execute_flow_endpoint_logs_raised_only (flow : FlowRead) (user_input : json) :
  let outcome := execute_flow (flow_definition flow) user_input in
  let answer := execute_flow_endpoint execute_flow flow user_input in
  (fst answer <> [] <-> exists e, outcome = inl (PyException e))
  /\ (forall m, outcome = inl (PyBaseException m) -> answer = ([], inl (PyBaseException m))).
Proof.
  cbv zeta. unfold execute_flow_endpoint.
  destruct (execute_flow (flow_definition flow) user_input) as [[e|m]|r].
  - split; [|discriminate]. split; [eauto|discriminate].
  - split; [|by intros ? [= ->]]. split; [done|]. intros [e [=]].
  - split; [|discriminate].
    destruct (success r); (split; [done|]); intros [e [=]].
Qed.

End HandlerLog.

(* ===================================================================== *)
(** * The further properties on concrete inputs *)
(* ===================================================================== *)

Section MoreInstances.
Import FlowRouter AppFactory RegistryRuns Traces Bootstrap Samples Scenarios.

Lemma registered_paths_are_served_witness :
  dynamic_routers (run_calls framework two_added_one_removed fresh_service)
    !! py "/run/translate"
  = Some (flow_router translate)
  /\ serves (app (run_calls framework two_added_one_removed fresh_service))
       (py "/run/translate")
     = true.
Proof.
  assert (dynamic_routers (run_calls framework two_added_one_removed fresh_service)
            !! py "/run/translate"
          = Some (flow_router translate)) as Hl by (by vm_compute).
  split; [exact Hl|].
  exact (proj2 (registered_paths_are_served framework (app fresh_service)
                  two_added_one_removed _ _ Hl)).
Defined.

Lemma run_calls_never_detach_witness :
  serves (app service_with_summarize) (py "/run/summarize") = true
  /\ serves (app (run_calls framework [RemoveFlowRoute (py "summarize")]
                    service_with_summarize))
       (py "/run/summarize") = true.
Proof.
  assert (serves (app service_with_summarize) (py "/run/summarize") = true) as Hs
    by reflexivity.
  split; [exact Hs|].
  exact (proj2 (run_calls_never_detach framework [RemoveFlowRoute (py "summarize")]
                  service_with_summarize) _ Hs).
Defined.

Lemma readd_keeps_old_route_witness :
  declare_route framework (py "/run/summarize") = inr tt
  /\ route_flow <$> routes_at (py "/run/summarize")
                      (app (run_calls framework [AddFlowRoute summarize;
                                                 RemoveFlowRoute (py "summarize");
                                                 AddFlowRoute summarize_v2] fresh_service))
     = [summarize; summarize_v2].
Proof.
  assert (declare_route framework (py "/run/summarize") = inr tt) as Hok by reflexivity.
  split; [exact Hok|].
  destruct (readd_keeps_old_route framework fresh_service summarize summarize_v2 eq_refl)
    as (_ & Hroutes & _); [apply lookup_empty|exact Hok|].
  change (run_path (endpoint summarize)) with (py "/run/summarize") in Hroutes.
  change (endpoint summarize) with (py "summarize") in Hroutes.
  by rewrite Hroutes.
Defined.

Lemma add_distinct_flows_witness :
  size (dynamic_routers (run_calls framework (AddFlowRoute <$> [summarize; translate])
                           fresh_service))
  = 2%nat.
Proof.
  destruct (add_distinct_flows framework [summarize; translate] fresh_service) as [Hsize _].
  - apply (bool_decide_unpack _). by vm_compute.
  - intros flow Hin. split; [apply lookup_empty|].
    apply elem_of_cons in Hin as [-> | Hin]; [reflexivity|].
    apply elem_of_cons in Hin as [-> | Hin]; [reflexivity|].
    by apply elem_of_nil in Hin.
  - exact Hsize.
Defined.

Lemma add_flow_route_other_paths_witness :
  py "/run/summarize" <> run_path (endpoint translate)
  /\ dynamic_routers (state_of (add_flow_route framework translate service_with_summarize))
       !! py "/run/summarize"
     = dynamic_routers service_with_summarize !! py "/run/summarize"
  /\ answers framework (app (state_of (add_flow_route framework translate
                                         service_with_summarize)))
       (py "/run/summarize")
     = answers framework (app service_with_summarize) (py "/run/summarize").
Proof.
  assert (py "/run/summarize" <> run_path (endpoint translate)) as Hne by discriminate.
  split; [exact Hne|].
  destruct (add_flow_route_other_paths framework service_with_summarize translate _ Hne)
    as (Hreg & _ & Hans).
  split; [exact Hreg|]. apply Hans. reflexivity.
Defined.

Lemma add_then_remove_witness :
  dynamic_routers (run_calls framework
                     [AddFlowRoute summarize; RemoveFlowRoute (endpoint summarize)]
                     fresh_service)
  = dynamic_routers fresh_service
  /\ answers framework
       (app (run_calls framework
               [AddFlowRoute summarize; RemoveFlowRoute (endpoint summarize)]
               fresh_service)) (run_path (endpoint summarize)) = true.
Proof.
  destruct (add_then_remove framework fresh_service summarize) as (Hreg & _ & Hans & _);
    [apply lookup_empty|reflexivity|].
  split; [exact Hreg|]. apply Hans. reflexivity.
Defined.

Lemma log_requests_dispatches_once_witness :
  snd (log_requests world_200 get_health) = inr {| status_code := 200 |}
  /\ dispatched (fst (log_requests world_200 get_health)) = [get_health].
Proof.
  split; [reflexivity|].
  exact (proj2 (proj2 (log_requests_dispatches_once world_200 get_health)
                  {| status_code := 200 |} eq_refl)).
Defined.

Lemma log_requests_downstream_failure_witness :
  snd (log_requests world_down post_chat) = inl (PyException (py "handler crashed"))
  /\ records (fst (log_requests world_down post_chat))
     = [ log INFO (MEMO ++ py " POST /v1/chat/completions body: {}") ].
Proof.
  destruct (log_requests_downstream_failure world_down post_chat
              (PyException (py "handler crashed")) eq_refl eq_refl) as [Hraise Hrec].
  split; [exact Hraise|]. by rewrite Hrec.
Defined.

Lemma respond_logs_unless_get_404_witness :
  is_scanner_like (path_or_root post_root_404) = true
  /\ length (records (fst (respond world_404 post_root_404))) = 2%nat.
Proof.
  split; [reflexivity|].
  apply (respond_logs_unless_get_404 world_404 post_root_404 {| status_code := 404 |});
    reflexivity.
Defined.


Lemma is_scanner_like_iff_witness :
  is_scanner_like (py "/run/summarize") = true
  /\ is_scanner_like (py "static/app.js") = true
  /\ is_scanner_like (py "run") = false.
Proof.
  split; [apply is_scanner_like_iff; by left|].
  split; [apply is_scanner_like_iff; right; exists (py ".js");
          split; [by apply (bool_decide_unpack _)|reflexivity]|].
  destruct (is_scanner_like (py "run")) eqn:Hr; [|reflexivity].
  apply is_scanner_like_iff in Hr as [Hr | (suffix & Hin & Hr)]; [discriminate|].
  unfold skip_suffixes in Hin.
  repeat (apply elem_of_cons in Hin as [-> | Hin]; [discriminate|]).
  by apply elem_of_nil in Hin.
Defined.

Lemma masked_types_by_categories_witness :
  masked_types [ {| hit_type := py "phone"; hit_span := (0, 4)%Z |};
                 {| hit_type := py "email"; hit_span := (5, 9)%Z |};
                 {| hit_type := py "phone"; hit_span := (10, 14)%Z |} ]
  = masked_types [ {| hit_type := py "email"; hit_span := (1, 2)%Z |};
                   {| hit_type := py "phone"; hit_span := (3, 4)%Z |} ].
Proof.
  apply masked_types_by_categories. intros c. cbn [fmap list_fmap hit_type].
  rewrite !elem_of_cons, !elem_of_nil. tauto.
Defined.

Lemma forwarded_prefix_only_slashes_witness :
  headers_get (py "x-forwarded-prefix") (headers (proxied "//")) = Some (py "//")
  /\ AppFactory.root_path (proxied "//") = py "/api"
  /\ dispatch (proxied "//") AppFactory.root_path = [].
Proof.
  split; [reflexivity|]. split; [reflexivity|].
  apply (forwarded_prefix_only_slashes (proxied "//") (py "//")); [reflexivity|discriminate|].
  by repeat constructor.
Defined.


Lemma create_app_returns_only_if_witness :
  snd (create_app (boot [] (inr true)) new_factory)
  = inr (built 1%nat 2%nat 10%nat 20%nat 100%nat 200%nat,
         app_settings (boot [] (inr true)))
  /\ init_database (boot [] (inr true)) = inr true.
Proof.
  assert (snd (create_app (boot [] (inr true)) new_factory)
          = inr (built 1%nat 2%nat 10%nat 20%nat 100%nat 200%nat,
                 app_settings (boot [] (inr true)))) as Hret by reflexivity.
  split; [exact Hret|].
  exact (proj1 (create_app_returns_only_if (boot [] (inr true)) new_factory _ _ Hret)).
Defined.

Lemma create_app_setup_failure_witness :
  snd (create_app boot_without_tools new_factory)
  = inl (PyException (py "No module named 'api.tools'"))
  /\ last (fst (create_app boot_without_tools new_factory)) = Some CallRegisterRouters.
Proof.
  destruct (create_app_setup_failure boot_without_tools new_factory
              1%nat 10%nat 100%nat 2%nat 20%nat 200%nat
              (PyException (py "No module named 'api.tools'"))
              eq_refl eq_refl eq_refl eq_refl eq_refl eq_refl) as (Hraise & Hlast & _).
  exact (conj Hraise Hlast).
Defined.

Lemma create_app_docs_urls_witness :
  snd (create_app boot_dev new_factory)
  = inr (built 1%nat 2%nat 10%nat 20%nat 100%nat 200%nat, app_settings boot_dev)
  /\ docs_url (app_settings boot_dev) = Some (py "/docs")
  /\ redoc_url (app_settings boot_dev) = Some (py "/redoc")
  /\ openapi_url (app_settings boot_dev) = Some (py "/openapi.json").
Proof.
  split; [reflexivity|].
  apply (create_app_docs_urls boot_dev new_factory
           (built 1%nat 2%nat 10%nat 20%nat 100%nat 200%nat) (app_settings boot_dev));
    [done| | |reflexivity|].
  - apply (bool_decide_unpack _). by vm_compute.
  - apply (bool_decide_unpack _). by vm_compute.
  - right. apply (bool_decide_unpack _). by vm_compute.
Defined.

Lemma execute_flow_endpoint_logs_raised_only_witness :
  fst (execute_flow_endpoint engine_failed summarize (JObj [])) = []
  /\ fst (execute_flow_endpoint engine_raises summarize (JObj [])) <> [].
Proof.
  split; [reflexivity|].
  apply (execute_flow_endpoint_logs_raised_only engine_raises summarize (JObj [])).
  by eexists.
Defined.

End MoreInstances.
